(** * Lingtea dashboard: the data pipeline of [app.py]

    A shallow embedding of the transformation pipeline of the dashboard
    script: loading and normalising the ledger, the three [isin] filters,
    the KPI block (totals, month-over-month change, top channel), the two
    rankings with their top-3 highlight, and the channel x month pivot with
    its anchor-column sort and highlight.

    Numbers are exact rationals ([Q], compared with [==]); a cell that
    pandas holds as NaN is [None].  A DataFrame is the list of its rows in
    positional order.  Python exceptions are the [Raise] branch of
    [result]. *)

From Stdlib Require Import List String Ascii Bool Arith ZArith QArith Lia.
From Stdlib Require Import Permutation Sorted Setoid Morphisms OrdersEx Lqa.
Import ListNotations.

Local Open Scope string_scope.
Local Open Scope Q_scope.

(** ** Exceptions *)

Inductive exn : Type :=
| IndexError   (* list index out of range *)
| KeyError     (* column label missing from the frame *)
| ValueError.  (* unparseable date with errors="raise"; idxmax of nothing *)

Inductive result (A : Type) : Type :=
| Ok (a : A)
| Raise (e : exn).

Arguments Ok {A} a.
Arguments Raise {A} e.

Definition bind {A B : Type} (m : result A) (k : A -> result B) : result B :=
  match m with
  | Ok a => k a
  | Raise e => Raise e
  end.

Notation "x <- m ;; k" := (bind m (fun x => k))
  (at level 61, m at next level, right associativity).

Fixpoint mapM {A B : Type} (f : A -> result B) (l : list A) : result (list B) :=
  match l with
  | [] => Ok []
  | a :: t => b <- f a ;; bs <- mapM f t ;; Ok (b :: bs)
  end.

(** ** The frame *)

(** One ledger line after [load_data].  Field by field:
    [ship_date] 출고일자, [period] 출고년월, [channel] 거래처코드,
    [product] 내품상품명, [quantity] 총내품출고수량,
    [revenue] 품목별매출(VAT제외). *)
Record Row : Type := mkRow {
  ship_date : option Z;
  period : string;
  channel : string;
  product : string;
  quantity : option Q;
  revenue : option Q
}.

Definition DataFrame : Type := list Row.

(** A record of the windowed frame, its date left aside. *)
Definition row (p c i : string) (q r : option Q) : Row :=
  mkRow (Some 0%Z) p c i q r.

(** ** Strings as keys: Python compares [str] by code point, which on
    UTF-8 bytes is the lexicographic byte order. *)

Definition str_lt (a b : string) : Prop := String_as_OT.compare a b = Lt.

Fixpoint insert_key (k : string) (l : list string) : list string :=
  match l with
  | [] => [k]
  | x :: t =>
      match String_as_OT.compare k x with
      | Lt => k :: l
      | Eq => l
      | Gt => x :: insert_key k t
      end
  end.

(** The distinct labels of a column in ascending order: the group keys of
    [groupby] (sort=True) and the value of [sorted(col.unique())]. *)
Definition sorted_unique (l : list string) : list string :=
  fold_right insert_key [] l.

Fixpoint insert_str (k : string) (l : list string) : list string :=
  match l with
  | [] => [k]
  | x :: t =>
      match String_as_OT.compare k x with
      | Gt => x :: insert_str k t
      | _ => k :: l
      end
  end.

(** Python's [sorted] on a list of [str] (duplicates kept). *)
Definition py_sorted (l : list string) : list string :=
  fold_right insert_str [] l.

(** [Series.isin(values)] on one label. *)
Definition isin (s : string) (values : list string) : bool :=
  existsb (String.eqb s) values.

(** ** Sums that skip NaN *)

Definition fillna0 (x : option Q) : Q :=
  match x with
  | Some v => v
  | None => 0
  end.

Definition Qsum (l : list Q) : Q := fold_right Qplus 0 l.

(** [Series.sum()] with the default skipna=True, min_count=0. *)
Definition series_sum (s : list (option Q)) : Q := Qsum (map fillna0 s).

(** [df.groupby(key)[val].sum().reset_index()]: one entry per distinct key,
    keys ascending, the value the NaN-skipping sum of the group. *)
Definition group_rows (key : Row -> string) (k : string) (df : DataFrame) : DataFrame :=
  filter (fun r => String.eqb (key r) k) df.

Definition groupby_sum (key : Row -> string) (val : Row -> option Q)
    (df : DataFrame) : list (string * Q) :=
  map (fun k => (k, series_sum (map val (group_rows key k df))))
      (sorted_unique (map key df)).

(** ** The library calls whose result the script does not pin down

    [sort_values] is called with the default kind ("quicksort"), which
    pandas documents as not stable; [pd.to_datetime] and [pd.to_numeric]
    are pandas' parsers.  The pipeline takes them through this interface:
    [argsort key rows] is the rows reordered by an ascending numpy argsort
    of the key column, and all it promises is a sorted permutation. *)
Class Pandas : Type := {
  argsort : forall A : Type, (A -> Q) -> list A -> list A;
  argsort_perm : forall A (key : A -> Q) l, Permutation (argsort A key l) l;
  argsort_sorted : forall A (key : A -> Q) l,
      StronglySorted (fun a b => key a <= key b) (argsort A key l);
  to_datetime : string -> option Z;
  to_numeric : string -> option Q
}.

Arguments argsort {_} {A} key l.

(** [DataFrame.sort_values(by, ascending)] as pandas' [nargsort] does it:
    for a descending sort the column is reversed, argsorted ascending, and
    the resulting order reversed again. *)
Definition sort_values `{Pandas} {A : Type} (by_ : A -> Q) (ascending : bool)
    (df : list A) : list A :=
  if ascending then argsort by_ df else rev (argsort by_ (rev df)).

(** ** Insertion sort, in two flavours that differ only in where an element
    lands among equal keys *)

Section InsertionSort.
Variable before : Q -> Q -> bool.
Context {A : Type} (key : A -> Q).

Fixpoint insert_with (x : A) (l : list A) : list A :=
  match l with
  | [] => [x]
  | y :: t => if before (key x) (key y) then x :: l
              else y :: insert_with x t
  end.

Definition isort_with (l : list A) : list A := fold_right insert_with [] l.
End InsertionSort.

(** An element goes in front of the keys that are not smaller: stable. *)
Definition stable_argsort {A : Type} (key : A -> Q) (l : list A) : list A :=
  isort_with Qle_bool key l.


(** ** Sidebar options (lines 151-190) *)

(** [sorted(df[col].unique())] for the three filter columns. *)
Definition all_months (df : DataFrame) : list string :=
  sorted_unique (map period df).

Definition all_channels (df : DataFrame) : list string :=
  sorted_unique (map channel df).

Definition all_items (df : DataFrame) : list string :=
  sorted_unique (map product df).

(** The value bound to [selected_*]: every option when the "select all"
    box is ticked, the picks of the multiselect otherwise. *)
Definition selection (select_all : bool) (options picked : list string)
    : list string :=
  if select_all then options else picked.

(** ** Filters (lines 195-199) *)

Definition filtered_df (df : DataFrame)
    (selected_months selected_channels selected_items : list string) : DataFrame :=
  filter (fun r => isin (period r) selected_months
                   && isin (channel r) selected_channels
                   && isin (product r) selected_items) df.

(** ** KPI block (lines 205-231) *)

Definition total_qty (f : DataFrame) : Q := series_sum (map quantity f).
Definition total_sales (f : DataFrame) : Q := series_sum (map revenue f).

(** A row of [monthly_sales]: the period, its revenue sum and the derived
    column 출고년월_dt. *)
Record MonthRow : Type := mkMonthRow {
  m_period : string;
  m_sales : Q;
  m_dt : Z
}.

(** [pd.to_datetime(period + "-01")] with errors="raise". *)
Definition with_dt `{Pandas} (e : string * Q) : result MonthRow :=
  match to_datetime (fst e ++ "-01") with
  | Some d => Ok (mkMonthRow (fst e) (snd e) d)
  | None => Raise ValueError
  end.

Definition monthly_sales `{Pandas} (f : DataFrame) : result (list MonthRow) :=
  ms <- mapM with_dt (groupby_sum period revenue f) ;;
  Ok (sort_values (fun m => inject_Z (m_dt m)) true ms).

(** [s.iloc[-i]] on a series long enough. *)
Definition iloc_neg (s : list Q) (i : nat) : Q := nth (List.length s - i) s 0.

Definition mom_of (ms : list MonthRow) : Q :=
  if (2 <=? List.length ms)%nat then
    let current_month_sales := iloc_neg (map m_sales ms) 1 in
    let previous_month_sales := iloc_neg (map m_sales ms) 2 in
    if negb (Qeq_bool previous_month_sales 0)
    then (current_month_sales - previous_month_sales) / previous_month_sales * 100
    else 0
  else 0.

Definition mom `{Pandas} (f : DataFrame) : result Q :=
  ms <- monthly_sales f ;; Ok (mom_of ms).

(** [Series.idxmax()]: the label of the first occurrence of the maximum. *)
Fixpoint first_max (best : string * Q) (s : list (string * Q)) : string * Q :=
  match s with
  | [] => best
  | e :: t => if Qle_bool (snd e) (snd best) then first_max best t
              else first_max e t
  end.

Definition idxmax (s : list (string * Q)) : result string :=
  match s with
  | [] => Raise ValueError
  | e :: t => Ok (fst (first_max e t))
  end.

Definition empty (f : DataFrame) : bool :=
  match f with
  | [] => true
  | _ :: _ => false
  end.

Definition top_channel (f : DataFrame) : result string :=
  if negb (empty f) then idxmax (groupby_sum channel revenue f) else Ok "-".

(** ** Trend (lines 251-265) *)

Definition monthly_trend `{Pandas} (f : DataFrame) : result (list (MonthRow * Q)) :=
  ms <- monthly_sales f ;;
  Ok (map (fun m => (m, m_sales m / 100000000)) ms).

(** ** Rankings (lines 289-327) *)

Definition channel_sales `{Pandas} (f : DataFrame) : list (string * Q) :=
  sort_values snd false (groupby_sum channel revenue f).

Definition item_rank `{Pandas} (f : DataFrame) : list (string * Q) :=
  sort_values snd false (groupby_sum product revenue f).

(** The values of a series, largest first. *)
Definition sort_desc (s : list Q) : list Q := stable_argsort Qopp s.

(** [s.nlargest(n).values]: the n largest values, largest first (keep
    "first" only decides which of several equal rows is named, not the
    values). *)
Definition nlargest (n : nat) (s : list Q) : list Q := firstn n (sort_desc s).

(** [v in top3] on a numpy array: some element compares equal. *)
Definition q_in (v : Q) (a : list Q) : bool := existsb (Qeq_bool v) a.

(** The style strings are read as flags: the gold/green style is [true],
    the empty style [false]. *)
Definition highlight_top3 (s : list Q) : list bool :=
  let top3 := nlargest 3 s in
  map (fun v => q_in v top3) s.

Definition styled_rank `{Pandas} (f : DataFrame) : list bool :=
  highlight_top3 (map snd (item_rank f)).

(** ** Pivot (lines 343-373) *)

Record Pivot : Type := mkPivot {
  pv_columns : list string;
  pv_rows : list (string * list Q)
}.

Definition pair_group (c p : string) (f : DataFrame) : DataFrame :=
  filter (fun r => String.eqb (channel r) c && String.eqb (period r) p) f.

(** The grouped sums over the observed (channel, period) pairs, in the
    order of the sorted MultiIndex. *)
Definition agged (f : DataFrame) : list ((string * string) * Q) :=
  map (fun cp => (cp, series_sum (map revenue (pair_group (fst cp) (snd cp) f))))
      (filter (fun cp => negb (empty (pair_group (fst cp) (snd cp) f)))
              (list_prod (sorted_unique (map channel f))
                         (sorted_unique (map period f)))).

Definition pair_eqb (a b : string * string) : bool :=
  String.eqb (fst a) (fst b) && String.eqb (snd a) (snd b).

Fixpoint lookup2 (k : string * string) (l : list ((string * string) * Q)) : option Q :=
  match l with
  | [] => None
  | (k', v) :: t => if pair_eqb k k' then Some v else lookup2 k t
  end.

(** [pd.pivot_table(values=revenue, index=channel, columns=period,
    aggfunc="sum", fill_value=0)]: the grouped sums unstacked, every pair
    of the rectangle that was not observed filled with [fill_value]. *)
Definition unstack (fill_value : Q) (idx cols : list string)
    (a : list ((string * string) * Q)) : Pivot :=
  mkPivot cols
    (map (fun c => (c, map (fun p => match lookup2 (c, p) a with
                                     | Some v => v
                                     | None => fill_value
                                     end) cols)) idx).

Definition pivot_table (f : DataFrame) : Pivot :=
  unstack 0 (sorted_unique (map channel f)) (sorted_unique (map period f))
          (agged f).

(** [sorted(selected_months)[-1]] *)
Definition latest_month (selected_months : list string) : result string :=
  match rev (py_sorted selected_months) with
  | [] => Raise IndexError
  | m :: _ => Ok m
  end.

Fixpoint index_of (c : string) (cols : list string) : option nat :=
  match cols with
  | [] => None
  | x :: t => if String.eqb c x then Some O
              else match index_of c t with
                   | Some j => Some (S j)
                   | None => None
                   end
  end.

(** The cell of a pivot row under column [c]. *)
Definition cell (cols : list string) (c : string) (row : string * list Q) : Q :=
  match index_of c cols with
  | Some j => nth j (snd row) 0
  | None => 0
  end.

(** [df[c]] *)
Definition column (pt : Pivot) (c : string) : list Q :=
  map (cell (pv_columns pt) c) (pv_rows pt).

(** Lines 355-359. *)
Definition sort_pivot `{Pandas} (latest : string) (pt : Pivot) : Pivot :=
  if isin latest (pv_columns pt)
  then mkPivot (pv_columns pt)
               (sort_values (cell (pv_columns pt) latest) false (pv_rows pt))
  else pt.

(** Lines 362-373: one list of flags per column, in column order. *)
Definition highlight_top3_pivot (latest : string) (df : Pivot)
    : list (string * list bool) :=
  if isin latest (pv_columns df) then
    let top3_vals := nlargest 3 (column df latest) in
    map (fun c => (c, map (fun v => String.eqb c latest && q_in v top3_vals)
                          (column df c)))
        (pv_columns df)
  else
    map (fun c => (c, map (fun _ => false) (column df c))) (pv_columns df).

(** ** The run below [load_data], in script order *)

Record Dashboard : Type := mkDashboard {
  d_total_qty : Q;
  d_total_sales : Q;
  d_mom : Q;
  d_top_channel : string;
  d_monthly_trend : list (MonthRow * Q);
  d_channel_sales : list (string * Q);
  d_item_rank : list (string * Q);
  d_styled_rank : list bool;
  d_latest_month : string;
  d_pivot_table : Pivot;
  d_styled_pivot : list (string * list bool)
}.

Definition dashboard `{Pandas} (df : DataFrame)
    (selected_months selected_channels selected_items : list string)
    : result Dashboard :=
  let f := filtered_df df selected_months selected_channels selected_items in
  let tq := total_qty f in
  let ts := total_sales f in
  m <- mom f ;;
  tc <- top_channel f ;;
  mt <- monthly_trend f ;;
  let cs := channel_sales f in
  let ir := item_rank f in
  let sr := styled_rank f in
  let pt := pivot_table f in
  lm <- latest_month selected_months ;;
  let pt' := sort_pivot lm pt in
  Ok (mkDashboard tq ts m tc mt cs ir sr lm pt' (highlight_top3_pivot lm pt')).

(** ** Loading and normalising (lines 94-136) *)

Definition find_col (name : string) (header : list string) : result nat :=
  match index_of name header with
  | Some j => Ok j
  | None => Raise KeyError
  end.

Definition cell_at (raw : list string) (j : nat) : string := nth j raw "".

(** [.str.replace(",", "", regex=False)] *)
Fixpoint strip_commas (s : string) : string :=
  match s with
  | EmptyString => EmptyString
  | String c t => if Ascii.eqb c ","%char then strip_commas t
                  else String c (strip_commas t)
  end.

(** Where the six columns the script keeps sit in the sheet. *)
Record Cols : Type := mkCols {
  c_date : nat;
  c_period : nat;
  c_channel : nat;
  c_product : nat;
  c_quantity : nat;
  c_revenue : nat
}.

(** [df[[...]]]: a label that is not in the header raises. *)
Definition required_columns (header : list string) : result Cols :=
  jd <- find_col "출고일자" header ;;
  jp <- find_col "출고년월" header ;;
  jc <- find_col "거래처코드" header ;;
  ji <- find_col "내품상품명" header ;;
  jq <- find_col "총내품출고수량" header ;;
  jr <- find_col "품목별매출(VAT제외)" header ;;
  Ok (mkCols jd jp jc ji jq jr).

(** One record per data row, each cell coerced on its own. *)
Definition normalize `{Pandas} (cols : Cols) (raw : list string) : Row :=
  mkRow (to_datetime (cell_at raw (c_date cols)))
        (cell_at raw (c_period cols))
        (cell_at raw (c_channel cols))
        (cell_at raw (c_product cols))
        (to_numeric (strip_commas (cell_at raw (c_quantity cols))))
        (to_numeric (strip_commas (cell_at raw (c_revenue cols)))).

(** [df["출고일자"] >= one_year_ago]; a comparison with NaT is False. *)
Definition in_window (one_year_ago : Z) (r : Row) : bool :=
  match ship_date r with
  | Some d => (one_year_ago <=? d)%Z
  | None => false
  end.

(** [data] is the sheet as [get_all_values] returns it, header first;
    [one_year_ago] stands for [today - relativedelta(months=12)]. *)
Definition load_data `{Pandas} (one_year_ago : Z) (data : list (list string))
    : result DataFrame :=
  match data with
  | [] => Raise IndexError
  | header :: body =>
      cols <- required_columns header ;;
      Ok (filter (in_window one_year_ago) (map (normalize cols) body))
  end.

(** ** Reference parsers for the canonical cell formats: ISO dates
    [YYYY-MM-DD] and decimal numbers with an optional sign and fraction *)

Definition digit (c : ascii) : option Z :=
  let n := Z.of_N (N_of_ascii c) in
  if ((48 <=? n) && (n <=? 57))%Z then Some (n - 48)%Z else None.

Fixpoint digits (l : list ascii) (acc : Z) : option Z :=
  match l with
  | [] => Some acc
  | c :: t => match digit c with
              | Some d => digits t (10 * acc + d)%Z
              | None => None
              end
  end.

(** A date [YYYY-MM-DD] as a day ordinal that grows with the date. *)
Definition iso_date (s : string) : option Z :=
  match list_ascii_of_string s with
  | [y1; y2; y3; y4; "-"%char; m1; m2; "-"%char; d1; d2] =>
      match digits [y1; y2; y3; y4] 0, digits [m1; m2] 0, digits [d1; d2] 0 with
      | Some y, Some m, Some d =>
          if ((1 <=? m) && (m <=? 12) && (1 <=? d) && (d <=? 31))%Z
          then Some ((y * 12 + (m - 1)) * 31 + (d - 1))%Z
          else None
      | _, _, _ => None
      end
  | _ => None
  end.

Fixpoint split_dot (l : list ascii) : list ascii * option (list ascii) :=
  match l with
  | [] => ([], None)
  | c :: t => if Ascii.eqb c "."%char then ([], Some t)
              else let '(a, b) := split_dot t in (c :: a, b)
  end.

Definition unsigned_decimal (l : list ascii) : option Q :=
  match split_dot l with
  | ([], _) => None
  | (ip, None) => match digits ip 0 with
                  | Some n => Some (inject_Z n)
                  | None => None
                  end
  | (_, Some []) => None
  | (ip, Some fp) =>
      match digits ip 0, digits fp 0 with
      | Some n, Some k =>
          Some (inject_Z n + inject_Z k / inject_Z (10 ^ Z.of_nat (List.length fp)))
      | _, _ => None
      end
  end.

Definition decimal (s : string) : option Q :=
  match list_ascii_of_string s with
  | "-"%char :: t => match unsigned_decimal t with
                     | Some q => Some (- q)
                     | None => None
                     end
  | l => unsigned_decimal l
  end.

(** ** Vocabulary of the statements *)



(** The summed revenue of one channel of the frame. *)
Definition channel_sum (f : DataFrame) (c : string) : Q :=
  series_sum (map revenue (group_rows channel c f)).

(** U+2014 EM DASH, three bytes in UTF-8. *)
Definition em_dash : string := "—".

Definition flags_count (flags : list bool) : nat :=
  List.length (filter (fun b => b) flags).

(** What "top three by value" asks of the flags of a series [s]: with
    [kth] the third largest value, an entry is flagged exactly when its
    value reaches [kth] (so every entry equal to [kth] is flagged), at
    least three entries are flagged, and the count exceeds three by the
    number of entries ranked below the third that tie with it. *)
Definition top3_by_value (s : list Q) (flags : list bool) : Prop :=
  let kth := nth 2 (sort_desc s) 0 in
  List.length flags = List.length s /\
  (forall i v, nth_error s i = Some v -> v == kth ->
               nth_error flags i = Some true) /\
  (forall i v, nth_error s i = Some v ->
               (nth_error flags i = Some true <-> kth <= v)) /\
  (3 <= flags_count flags)%nat /\
  flags_count flags
  = (3 + List.length (filter (Qeq_bool kth) (skipn 3 (sort_desc s))))%nat /\
  ((forall x, In x (skipn 3 (sort_desc s)) -> ~ x == kth) ->
   flags_count flags = 3%nat).

(** The flags [highlight_top3_pivot] puts on column [c]. *)
Definition styled_column (styled : list (string * list bool)) (c : string)
    : list bool :=
  match find (fun e => String.eqb (fst e) c) styled with
  | Some e => snd e
  | None => []
  end.

(** The revenue sum of one period of the frame. *)
Definition period_sum (f : DataFrame) (p : string) : Q :=
  series_sum (map revenue (group_rows period p f)).

(** The date the script derives from a period label. *)
Definition dt_of `{Pandas} (p : string) : option Z := to_datetime (p ++ "-01").

(** [p] is chronologically before [q], both labels being dates. *)
Definition chron_lt `{Pandas} (p q : string) : Prop :=
  match dt_of p, dt_of q with
  | Some a, Some b => (a < b)%Z
  | _, _ => False
  end.

(** [p1] is the chronologically last period present in the frame. *)
Definition latest_present `{Pandas} (f : DataFrame) (p1 : string) : Prop :=
  In p1 (map period f) /\
  forall p, In p (map period f) -> p <> p1 -> chron_lt p p1.

(** [p2] is the chronologically last period present besides [p1]. *)
Definition previous_present `{Pandas} (f : DataFrame) (p1 p2 : string) : Prop :=
  In p2 (map period f) /\ p2 <> p1 /\
  forall p, In p (map period f) -> p <> p1 -> p <> p2 -> chron_lt p p2.

Definition month_ok `{Pandas} (f : DataFrame) (m : MonthRow) : Prop :=
  In (m_period m) (map period f) /\
  m_sales m = period_sum f (m_period m) /\
  dt_of (m_period m) = Some (m_dt m).


(** The channels of a frame in the order of their first occurrence. *)
Fixpoint first_seen (seen l : list string) : list string :=
  match l with
  | [] => []
  | x :: t => if isin x seen then first_seen seen t
              else x :: first_seen (x :: seen) t
  end.

Definition emergence_order (f : DataFrame) : list string :=
  first_seen [] (map channel f).

Definition str_le (a b : string) : Prop := a = b \/ str_lt a b.



(** ** Sample frames *)

Definition tied_channels : DataFrame :=
  [row "2024-05" "A" "Tea" (Some 1) (Some 100);
   row "2024-05" "B" "Tea" (Some 1) (Some 100)].


(** Four products and four channels, the third and fourth tied. *)
Definition tie_at_third : DataFrame :=
  [row "2024-05" "A" "Oolong" (Some 1) (Some 400);
   row "2024-05" "B" "Sencha" (Some 1) (Some 300);
   row "2024-05" "C" "Matcha" (Some 1) (Some 200);
   row "2024-05" "D" "Assam" (Some 1) (Some 200)].

(** April and June present, May absent. *)
Definition gap_month : DataFrame :=
  [row "2024-06" "A" "Tea" (Some 1) (Some 150);
   row "2024-04" "A" "Tea" (Some 1) (Some 100)].

(** January sums to 0, February to 100. *)
Definition zero_previous : DataFrame :=
  [row "2024-01" "A" "Tea" (Some 1) (Some 0);
   row "2024-02" "A" "Tea" (Some 1) (Some 100)].

Definition single_period : DataFrame :=
  [row "2024-02" "A" "Tea" (Some 1) (Some 100);
   row "2024-02" "B" "Tea" (Some 1) (Some 40)].

(** Channel B occurs before channel A; channel C alone sells in June. *)
Definition b_before_a : DataFrame :=
  [row "2024-05" "B" "Tea" (Some 1) (Some 100);
   row "2024-05" "A" "Tea" (Some 1) (Some 300);
   row "2024-06" "C" "Tea" (Some 1) (Some 200)].

(** [b_before_a] with every month selected and channel C deselected. *)
Definition a_and_b_only : DataFrame :=
  filtered_df b_before_a ["2024-05"; "2024-06"] ["A"; "B"] ["Tea"].

Definition sheet_header : list string :=
  ["출고일자"; "출고년월"; "거래처코드"; "내품상품명"; "총내품출고수량";
   "품목별매출(VAT제외)"; "비고"].


(** 2023-06-01 as a day ordinal: twelve months before 2024-06-01. *)
Definition june_2023 : Z := 752711.

(** A sheet with a recent row, a row older than the cut and a row whose
    date is not a date. *)
Definition mixed_dates_sheet : list (list string) :=
  [sheet_header;
   ["2024-05-01"; "2024-05"; "A"; "Tea"; "10"; "1,000"; ""];
   ["2022-01-15"; "2022-01"; "A"; "Tea"; "7"; "700"; ""];
   ["soon"; "2024-05"; "B"; "Tea"; "5"; "500"; ""]].


(** Returns exceed sales in April: the previous revenue is negative. *)
Definition negative_previous : DataFrame :=
  [row "2024-04" "A" "Tea" (Some 1) (Some (-100));
   row "2024-05" "A" "Tea" (Some 1) (Some 50)].

(** * Properties *)

(** ** The insertion sorts meet the contract of [argsort] *)

Section InsertionSortFacts.
Variable before : Q -> Q -> bool.
Hypothesis before_le : forall a b, before a b = true -> a <= b.
Hypothesis before_ge : forall a b, before a b = false -> b <= a.
Context {A : Type} (key : A -> Q).

Lemma insert_with_perm (x : A) (l : list A) :
  Permutation (insert_with before key x l) (x :: l).
Proof.
  induction l as [|y t IH]; simpl.
  - apply Permutation_refl.
  - destruct (before (key x) (key y)).
    + apply Permutation_refl.
    + apply perm_trans with (y :: x :: t).
      * apply perm_skip, IH.
      * apply perm_swap.
Qed.

Lemma isort_with_perm (l : list A) : Permutation (isort_with before key l) l.
Proof.
  induction l as [|x t IH]; simpl.
  - apply perm_nil.
  - eapply perm_trans; [apply insert_with_perm|].
    apply perm_skip, IH.
Qed.

Lemma insert_with_sorted (x : A) (l : list A) :
  StronglySorted (fun a b => key a <= key b) l ->
  StronglySorted (fun a b => key a <= key b) (insert_with before key x l).
Proof.
  induction 1 as [|y t Hs IH Hall]; simpl.
  - constructor; constructor.
  - destruct (before (key x) (key y)) eqn:E.
    + constructor.
      * constructor; assumption.
      * constructor; [now apply before_le|].
        apply before_le in E.
        eapply Forall_impl; [|exact Hall].
        intros z Hz. simpl in Hz. eapply Qle_trans; eassumption.
    + constructor; [exact IH|].
      apply before_ge in E.
      eapply Permutation_Forall.
      * apply Permutation_sym, insert_with_perm.
      * constructor; assumption.
Qed.

Lemma isort_with_sorted (l : list A) :
  StronglySorted (fun a b => key a <= key b) (isort_with before key l).
Proof.
  induction l as [|x t IH]; simpl.
  - constructor.
  - apply insert_with_sorted, IH.
Qed.
End InsertionSortFacts.

Lemma Qle_bool_false_ge (a b : Q) : Qle_bool a b = false -> b <= a.
Proof.
  intros E. destruct (Qlt_le_dec b a) as [Hlt|Hle].
  - apply Qlt_le_weak, Hlt.
  - apply Qle_bool_iff in Hle. congruence.
Qed.



(** pandas with a stable sort kind and the canonical parsers. *)
#[local] Instance stable_pandas : Pandas := {|
  argsort := fun A => @stable_argsort A;
  argsort_perm := fun A key l =>
    isort_with_perm Qle_bool key l;
  argsort_sorted := fun A key l =>
    isort_with_sorted Qle_bool Qle_bool_imp_le Qle_bool_false_ge key l;
  to_datetime := iso_date;
  to_numeric := decimal
|}.


(** ** Lists *)

Lemma StronglySorted_app_iff {A : Type} (R : A -> A -> Prop) (l1 l2 : list A) :
  StronglySorted R (l1 ++ l2) <->
  StronglySorted R l1 /\ StronglySorted R l2 /\
  Forall (fun a => Forall (R a) l2) l1.
Proof.
  induction l1 as [|a t IH]; simpl.
  - split.
    + intros Hs. repeat split; [constructor | exact Hs | constructor].
    + intros (_ & Hs & _). exact Hs.
  - split.
    + intros Hs. apply StronglySorted_inv in Hs. destruct Hs as [Hs Ha].
      apply IH in Hs. destruct Hs as (H1 & H2 & H3).
      apply Forall_app in Ha. destruct Ha as [Ha1 Ha2].
      repeat split; [constructor; assumption | assumption | constructor; assumption].
    + intros (H1 & H2 & H3).
      apply StronglySorted_inv in H1. destruct H1 as [H1 Ha].
      inversion H3 as [|? ? Ha2 H3']; subst.
      constructor.
      * apply IH. repeat split; assumption.
      * apply Forall_app. split; assumption.
Qed.

Lemma StronglySorted_rev {A : Type} (R : A -> A -> Prop) (l : list A) :
  StronglySorted R l -> StronglySorted (fun a b => R b a) (rev l).
Proof.
  induction 1 as [|a t Hs IH Ha]; simpl.
  - constructor.
  - apply StronglySorted_app_iff. repeat split.
    + exact IH.
    + constructor; constructor.
    + apply Forall_forall. intros x Hx. constructor; [|constructor].
      apply in_rev in Hx. rewrite Forall_forall in Ha. now apply Ha.
Qed.


Lemma StronglySorted_map {A B : Type} (R : B -> B -> Prop) (g : A -> B)
    (l : list A) :
  StronglySorted (fun a b => R (g a) (g b)) l <-> StronglySorted R (map g l).
Proof.
  induction l as [|a t IH]; simpl.
  - split; constructor.
  - split; intros Hs; apply StronglySorted_inv in Hs; destruct Hs as [Hs Ha];
      constructor; try (now apply IH).
    + rewrite Forall_map. exact Ha.
    + rewrite Forall_map in Ha. exact Ha.
Qed.


(** ** What every sort kind guarantees of [sort_values] *)

Section SortValues.
Context `{Pandas} {A : Type} (by_ : A -> Q).

Lemma argsort_nil : argsort by_ [] = [].
Proof.
  apply Permutation_nil, Permutation_sym, argsort_perm.
Qed.

Lemma sort_values_perm (ascending : bool) (l : list A) :
  Permutation (sort_values by_ ascending l) l.
Proof.
  unfold sort_values. destruct ascending.
  - apply argsort_perm.
  - eapply perm_trans; [apply Permutation_sym, Permutation_rev|].
    eapply perm_trans; [apply argsort_perm|].
    apply Permutation_sym, Permutation_rev.
Qed.

Lemma sort_values_ascending (l : list A) :
  StronglySorted (fun a b => by_ a <= by_ b) (sort_values by_ true l).
Proof. apply argsort_sorted. Qed.

Lemma sort_values_descending (l : list A) :
  StronglySorted (fun a b => by_ b <= by_ a) (sort_values by_ false l).
Proof.
  unfold sort_values.
  apply (StronglySorted_rev (fun a b => by_ a <= by_ b)), argsort_sorted.
Qed.

Lemma sort_values_length (ascending : bool) (l : list A) :
  List.length (sort_values by_ ascending l) = List.length l.
Proof. apply Permutation_length, sort_values_perm. Qed.
End SortValues.




(** ** Group keys *)

Lemma str_compare_eq (a b : string) : String_as_OT.compare a b = Eq -> a = b.
Proof.
  intros E. destruct (String_as_OT.compare_spec a b); congruence.
Qed.

Lemma str_compare_gt (a b : string) : String_as_OT.compare a b = Gt -> str_lt b a.
Proof.
  intros E. destruct (String_as_OT.compare_spec a b); congruence || assumption.
Qed.

Lemma str_lt_trans (a b c : string) : str_lt a b -> str_lt b c -> str_lt a c.
Proof. apply String_as_OT.lt_strorder. Qed.

Lemma str_lt_irrefl (a : string) : ~ str_lt a a.
Proof. apply String_as_OT.lt_strorder. Qed.

Lemma insert_key_In (k y : string) (l : list string) :
  In y (insert_key k l) <-> y = k \/ In y l.
Proof.
  induction l as [|x t IH]; simpl.
  - intuition.
  - destruct (String_as_OT.compare k x) eqn:E; simpl.
    + apply str_compare_eq in E. subst. intuition.
    + intuition.
    + rewrite IH. intuition.
Qed.

Lemma insert_key_sorted (k : string) (l : list string) :
  StronglySorted str_lt l -> StronglySorted str_lt (insert_key k l).
Proof.
  induction 1 as [|x t Hs IH Hx]; simpl.
  - constructor; constructor.
  - destruct (String_as_OT.compare k x) eqn:E.
    + constructor; assumption.
    + constructor; [constructor; assumption|].
      constructor; [exact E|].
      eapply Forall_impl; [|exact Hx].
      intros z Hz. eapply str_lt_trans; eassumption.
    + constructor; [exact IH|].
      apply Forall_forall. intros z Hz. apply insert_key_In in Hz.
      destruct Hz as [->|Hz].
      * now apply str_compare_gt.
      * rewrite Forall_forall in Hx. now apply Hx.
Qed.

Lemma sorted_unique_In (y : string) (l : list string) :
  In y (sorted_unique l) <-> In y l.
Proof.
  induction l as [|x t IH]; simpl; [reflexivity|].
  rewrite insert_key_In, IH. intuition.
Qed.

Lemma sorted_unique_sorted (l : list string) :
  StronglySorted str_lt (sorted_unique l).
Proof.
  induction l as [|x t IH]; simpl.
  - constructor.
  - apply insert_key_sorted, IH.
Qed.

Lemma str_sorted_NoDup (l : list string) : StronglySorted str_lt l -> NoDup l.
Proof.
  induction 1 as [|x t Hs IH Hx].
  - constructor.
  - constructor; [|exact IH].
    intros Hin. rewrite Forall_forall in Hx.
    exact (str_lt_irrefl x (Hx x Hin)).
Qed.

Lemma sorted_unique_NoDup (l : list string) : NoDup (sorted_unique l).
Proof. apply str_sorted_NoDup, sorted_unique_sorted. Qed.

Lemma groupby_sum_keys (key : Row -> string) (val : Row -> option Q)
    (df : DataFrame) :
  map fst (groupby_sum key val df) = sorted_unique (map key df).
Proof.
  unfold groupby_sum. rewrite map_map. simpl. apply map_id.
Qed.

Lemma groupby_sum_In (key : Row -> string) (val : Row -> option Q)
    (df : DataFrame) (e : string * Q) :
  In e (groupby_sum key val df) <->
  In (fst e) (map key df) /\
  snd e = series_sum (map val (group_rows key (fst e) df)).
Proof.
  unfold groupby_sum. rewrite in_map_iff. split.
  - intros (k & <- & Hk). simpl. split; [|reflexivity].
    now apply sorted_unique_In.
  - intros [Hk Hv]. exists (fst e). split.
    + destruct e; simpl in *; now subst.
    + now apply sorted_unique_In.
Qed.


Lemma groupby_sum_nonempty (key : Row -> string) (val : Row -> option Q)
    (f : DataFrame) :
  f <> [] -> exists e t, groupby_sum key val f = e :: t.
Proof.
  intros Hne.
  destruct (groupby_sum key val f) as [|e t] eqn:Eg; [|eauto].
  exfalso. destruct f as [|r f']; [congruence|].
  assert (Hin : In (key r) (map fst (groupby_sum key val (r :: f')))).
  { rewrite groupby_sum_keys. apply sorted_unique_In. now left. }
  rewrite Eg in Hin. exact Hin.
Qed.

Lemma top_channel_defined (f : DataFrame) : exists k, top_channel f = Ok k.
Proof.
  destruct f as [|r t]; [now exists "-"|].
  destruct (groupby_sum_nonempty channel revenue (r :: t)) as (e & l & Eg);
    [discriminate|].
  unfold top_channel. cbn [empty negb]. rewrite Eg. simpl. eauto.
Qed.

(** ** Ranker *)





(** ** Top channel *)

Lemma first_max_spec (t : list (string * Q)) (e : string * Q) :
  exists l1 l2,
    e :: t = (l1 ++ first_max e t :: l2)%list /\
    Forall (fun x => snd x < snd (first_max e t)) l1 /\
    Forall (fun x => snd x <= snd (first_max e t)) l2.
Proof.
  revert e. induction t as [|a t IH]; intros e; simpl.
  - exists [], []. repeat split; constructor.
  - destruct (Qle_bool (snd a) (snd e)) eqn:E.
    + apply Qle_bool_iff in E.
      destruct (IH e) as (l1 & l2 & Heq & H1 & H2).
      remember (first_max e t) as m eqn:Em. clear Em IH.
      destruct l1 as [|x l1]; simpl in Heq.
      * injection Heq as He Ht. subst m t.
        exists [], (a :: l2). repeat split.
        -- constructor.
        -- constructor; assumption.
      * injection Heq as He Ht. subst x t.
        exists (e :: a :: l1), l2. repeat split.
        -- inversion H1 as [|? ? He1 Hl1]; subst.
           constructor; [exact He1|]. constructor; [|exact Hl1].
           eapply Qle_lt_trans; eassumption.
        -- exact H2.
    + assert (Hlt : snd e < snd a).
      { destruct (Qlt_le_dec (snd e) (snd a)) as [Hlt|Hle]; [exact Hlt|].
        apply Qle_bool_iff in Hle. congruence. }
      destruct (IH a) as (l1 & l2 & Heq & H1 & H2).
      remember (first_max a t) as m eqn:Em. clear Em IH.
      exists (e :: l1), l2. repeat split.
      * simpl. now rewrite <- Heq.
      * constructor; [|exact H1].
        destruct l1 as [|x l1]; simpl in Heq.
        -- injection Heq as He _. now rewrite <- He.
        -- injection Heq as He _. subst x.
           inversion H1; subst. eapply Qlt_trans; eassumption.
      * exact H2.
Qed.




(** C3 (as amended).  On an empty filtered frame the top-channel KPI does
    not fail: it is the sentinel "-" (the ASCII hyphen-minus that line 230
    writes). *)
Theorem top_channel_empty_sentinel
    (df : DataFrame) (selected_months selected_channels selected_items : list string) :
  filtered_df df selected_months selected_channels selected_items = [] ->
  top_channel (filtered_df df selected_months selected_channels selected_items)
  = Ok "-".
Proof.
  intros ->. reflexivity.
Qed.

Lemma top_channel_empty_sentinel_witness :
  filtered_df tied_channels [] ["A"; "B"] ["Tea"] = [] /\
  top_channel (filtered_df tied_channels [] ["A"; "B"] ["Tea"]) = Ok "-".
Proof.
  split; [reflexivity|].
  apply (top_channel_empty_sentinel tied_channels [] ["A"; "B"] ["Tea"]).
  reflexivity.
Defined.

(** C3 as the specification states it does not hold: the value on empty
    data is not the em dash. *)
Lemma top_channel_empty_is_not_em_dash :
  String.length em_dash = 3%nat /\ top_channel [] <> Ok em_dash.
Proof.
  split; [reflexivity|]. discriminate.
Qed.

(** ** Top-3 highlight *)

Lemma sort_desc_perm (s : list Q) : Permutation (sort_desc s) s.
Proof. apply isort_with_perm. Qed.

Lemma sort_desc_sorted (s : list Q) :
  StronglySorted (fun a b => b <= a) (sort_desc s).
Proof.
  assert (Hs := isort_with_sorted Qle_bool Qle_bool_imp_le Qle_bool_false_ge
                  Qopp s).
  fold (stable_argsort Qopp s) in Hs. fold (sort_desc s) in Hs.
  induction Hs as [|a t Hs IH Ha]; constructor; [exact IH|].
  eapply Forall_impl; [|exact Ha].
  intros b Hb. simpl in Hb. apply Qopp_le_compat in Hb.
  now rewrite !Qopp_involutive in Hb.
Qed.

Lemma flags_count_map {A : Type} (p : A -> bool) (l : list A) :
  flags_count (map p l) = List.length (filter p l).
Proof.
  unfold flags_count. induction l as [|a t IH]; simpl; [reflexivity|].
  destruct (p a); simpl; now rewrite IH.
Qed.

Lemma Permutation_filter_length {A : Type} (p : A -> bool) (l l' : list A) :
  Permutation l l' -> List.length (filter p l) = List.length (filter p l').
Proof.
  induction 1 as [|x l l' _ IH|x y l|l l' l'' _ IH1 _ IH2]; simpl.
  - reflexivity.
  - destruct (p x); simpl; now rewrite IH.
  - destruct (p x), (p y); reflexivity.
  - now rewrite IH1.
Qed.

Lemma highlight_top3_by_value (s : list Q) :
  (3 <= List.length s)%nat -> top3_by_value s (highlight_top3 s).
Proof.
  intros Hlen. unfold top3_by_value, highlight_top3, nlargest.
  assert (Hp := sort_desc_perm s). assert (Hs := sort_desc_sorted s).
  assert (HL := Permutation_length Hp).
  destruct (sort_desc s) as [|a [|b [|c rest]]]; simpl in HL; try lia.
  cbn [firstn skipn nth].
  apply StronglySorted_inv in Hs. destruct Hs as [Hs Ha].
  apply StronglySorted_inv in Hs. destruct Hs as [Hs Hb].
  apply StronglySorted_inv in Hs. destruct Hs as [_ Hc].
  inversion Ha as [|? ? Hba Ha']; subst. inversion Ha' as [|? ? Hca _]; subst.
  inversion Hb as [|? ? Hcb _]; subst.
  rewrite Forall_forall in Hc.
  assert (Hflag : forall v, In v (a :: b :: c :: rest) ->
            (q_in v [a; b; c] = true <-> c <= v)).
  { intros v Hv. unfold q_in. cbn [existsb].
    repeat rewrite orb_true_iff. repeat rewrite Qeq_bool_iff.
    split.
    - intros [E|[E|[E|E]]]; try discriminate; rewrite E;
        [exact Hca | exact Hcb | apply Qle_refl].
    - intros Hle. destruct Hv as [<-|[<-|[<-|Hv]]].
      + left. reflexivity.
      + right. left. reflexivity.
      + right. right. left. reflexivity.
      + right. right. left. apply Qle_antisym; [now apply Hc | exact Hle]. }
  assert (Hflag' : forall i v, nth_error s i = Some v ->
            (nth_error (map (fun v => q_in v [a; b; c]) s) i = Some true
             <-> c <= v)).
  { intros i v Hi. rewrite nth_error_map, Hi. cbn [option_map].
    rewrite <- Hflag.
    - split; intros E; [injection E as E; exact E | f_equal; exact E].
    - apply Permutation_in with (l := s); [now apply Permutation_sym|].
      eapply nth_error_In, Hi. }
  assert (Hcount : flags_count (map (fun v => q_in v [a; b; c]) s)
            = (3 + List.length (filter (Qeq_bool c) rest))%nat).
  { rewrite flags_count_map.
    rewrite (Permutation_filter_length _ _ _ (Permutation_sym Hp)).
    cbn [filter].
    rewrite (proj2 (Hflag a (or_introl eq_refl)) Hca).
    rewrite (proj2 (Hflag b (or_intror (or_introl eq_refl))) Hcb).
    rewrite (proj2 (Hflag c (or_intror (or_intror (or_introl eq_refl))))
                   (Qle_refl c)).
    cbn [List.length Nat.add]. do 4 f_equal.
    apply filter_ext_in. intros x Hx.
    apply eq_true_iff_eq. rewrite Hflag by (now do 3 right).
    rewrite Qeq_bool_iff. split.
    - intros Hle. apply Qle_antisym; [exact Hle | now apply Hc].
    - intros ->. apply Qle_refl. }
  split; [|split; [|split; [|split; [|split]]]].
  - apply length_map.
  - intros i v Hi Heq. apply (Hflag' i v Hi). rewrite Heq. apply Qle_refl.
  - exact Hflag'.
  - rewrite Hcount. lia.
  - exact Hcount.
  - intros Hno. rewrite Hcount. clear Hcount Hflag Hflag' Hp HL Hb Ha Ha'.
    replace (filter (Qeq_bool c) rest) with (@nil Q); [reflexivity|].
    symmetry. induction rest as [|x t IHt]; [reflexivity|].
    simpl. destruct (Qeq_bool c x) eqn:E.
    + exfalso. apply (Hno x (or_introl eq_refl)).
      apply Qeq_bool_iff in E. now symmetry.
    + apply IHt.
      * intros y Hy. apply Hc. now right.
      * intros y Hy. apply Hno. now right.
Qed.

Lemma find_labelled {B : Type} (g : string -> B) (cols : list string) (c : string) :
  isin c cols = true ->
  find (fun e => String.eqb (fst e) c) (map (fun x => (x, g x)) cols)
  = Some (c, g c).
Proof.
  unfold isin. induction cols as [|x t IH]; simpl; [discriminate|].
  intros Hin. destruct (String.eqb x c) eqn:E.
  - apply String.eqb_eq in E. now subst.
  - rewrite String.eqb_sym, E in Hin. simpl in Hin. now apply IH.
Qed.

Lemma highlight_top3_pivot_anchor (latest : string) (pt : Pivot) :
  isin latest (pv_columns pt) = true ->
  styled_column (highlight_top3_pivot latest pt) latest
  = highlight_top3 (column pt latest).
Proof.
  intros Hin. unfold styled_column, highlight_top3_pivot. rewrite Hin.
  rewrite (find_labelled
             (fun c => map (fun v => String.eqb c latest
                                     && q_in v (nlargest 3 (column pt latest)))
                           (column pt c)) _ _ Hin).
  simpl. unfold highlight_top3. apply map_ext. intros v.
  now rewrite String.eqb_refl.
Qed.

Lemma highlight_top3_pivot_elsewhere (latest c : string) (pt : Pivot) :
  c <> latest ->
  Forall (fun b => b = false) (styled_column (highlight_top3_pivot latest pt) c).
Proof.
  intros Hc. unfold styled_column.
  destruct (find _ _) as [e|] eqn:Ef; [|constructor].
  apply find_some in Ef. destruct Ef as [Hin He].
  apply String.eqb_eq in He.
  unfold highlight_top3_pivot in Hin.
  destruct (isin latest (pv_columns pt)); apply in_map_iff in Hin;
    destruct Hin as (x & <- & _); simpl in *; subst x;
    apply Forall_forall; intros b Hb; apply in_map_iff in Hb;
    destruct Hb as (v & <- & _); [|reflexivity].
  apply String.eqb_neq in Hc. now rewrite Hc.
Qed.

(** C4.  With at least three entries the top-3 flag goes by value: an
    entry is flagged exactly when its value reaches the third largest
    value, so every entry equal to the third largest value is flagged; the
    number of flagged entries is at least 3, exceeds 3 by the number of
    lower-ranked entries tied with the third, and is exactly 3 when there
    is no such tie.  This holds of the product ranking's revenue column and
    of the anchor column of the pivot, whose other columns carry no flag. *)
Theorem top3_flag_goes_by_value (P : Pandas) (f : DataFrame) (latest : string) :
  ((3 <= List.length (item_rank f))%nat ->
   top3_by_value (map snd (item_rank f)) (styled_rank f)) /\
  (isin latest (pv_columns (sort_pivot latest (pivot_table f))) = true ->
   (3 <= List.length (pv_rows (sort_pivot latest (pivot_table f))))%nat ->
   top3_by_value
     (column (sort_pivot latest (pivot_table f)) latest)
     (styled_column
        (highlight_top3_pivot latest (sort_pivot latest (pivot_table f)))
        latest) /\
   forall c, c <> latest ->
     Forall (fun b => b = false)
       (styled_column
          (highlight_top3_pivot latest (sort_pivot latest (pivot_table f))) c)).
Proof.
  split.
  - intros Hlen. unfold styled_rank. apply highlight_top3_by_value.
    now rewrite length_map.
  - intros Hin Hlen. split.
    + rewrite highlight_top3_pivot_anchor by exact Hin.
      apply highlight_top3_by_value. unfold column. now rewrite length_map.
    + intros c Hc. now apply highlight_top3_pivot_elsewhere.
Qed.

Lemma top3_flag_goes_by_value_witness :
  (3 <= List.length (@item_rank stable_pandas tie_at_third))%nat /\
  isin "2024-05"
    (pv_columns (@sort_pivot stable_pandas "2024-05" (pivot_table tie_at_third)))
  = true /\
  (3 <= List.length
          (pv_rows (@sort_pivot stable_pandas "2024-05"
                                (pivot_table tie_at_third))))%nat /\
  top3_by_value (map snd (@item_rank stable_pandas tie_at_third))
                (@styled_rank stable_pandas tie_at_third) /\
  @styled_rank stable_pandas tie_at_third = [true; true; true; true] /\
  top3_by_value
    (column (@sort_pivot stable_pandas "2024-05" (pivot_table tie_at_third))
            "2024-05")
    (styled_column
       (highlight_top3_pivot "2024-05"
          (@sort_pivot stable_pandas "2024-05" (pivot_table tie_at_third)))
       "2024-05").
Proof.
  assert (H1 : (3 <= List.length (@item_rank stable_pandas tie_at_third))%nat)
    by (vm_compute; lia).
  assert (H2 : isin "2024-05"
                 (pv_columns (@sort_pivot stable_pandas "2024-05"
                                          (pivot_table tie_at_third))) = true)
    by reflexivity.
  assert (H3 : (3 <= List.length
                       (pv_rows (@sort_pivot stable_pandas "2024-05"
                                             (pivot_table tie_at_third))))%nat)
    by (vm_compute; lia).
  split; [exact H1|]. split; [exact H2|]. split; [exact H3|].
  split; [|split; [reflexivity|]].
  - exact (proj1 (top3_flag_goes_by_value stable_pandas tie_at_third "2024-05")
                 H1).
  - exact (proj1 (proj2 (top3_flag_goes_by_value stable_pandas tie_at_third
                                                 "2024-05") H2 H3)).
Defined.

(** ** Month over month *)

Lemma mapM_with_dt `{Pandas} (g : list (string * Q)) :
  (forall e, In e g -> dt_of (fst e) <> None) ->
  exists ms, mapM with_dt g = Ok ms /\
             map m_period ms = map fst g /\
             forall m, In m ms ->
                       In (m_period m, m_sales m) g /\
                       dt_of (m_period m) = Some (m_dt m).
Proof.
  induction g as [|e t IH]; intros Hok.
  - exists []. repeat split; try reflexivity; contradiction.
  - destruct IH as (ms & Hms & Hkeys & Hall).
    { intros e' He'. apply Hok. now right. }
    assert (He := Hok e (or_introl eq_refl)). unfold dt_of in He.
    destruct (to_datetime (fst e ++ "-01")) as [d|] eqn:Ed; [|congruence].
    exists (mkMonthRow (fst e) (snd e) d :: ms).
    simpl. unfold with_dt at 1. rewrite Ed. simpl. rewrite Hms. simpl.
    split; [reflexivity|]. split; [now rewrite Hkeys|].
    intros m [<-|Hm]; simpl.
    + split; [left; now destruct e | exact Ed].
    + split; [right|]; now apply Hall.
Qed.

Lemma monthly_sales_spec `{Pandas} (f : DataFrame) :
  (forall p, In p (map period f) -> dt_of p <> None) ->
  exists ms,
    monthly_sales f = Ok (sort_values (fun m => inject_Z (m_dt m)) true ms) /\
    map m_period ms = sorted_unique (map period f) /\
    forall m, In m ms -> month_ok f m.
Proof.
  intros Hok.
  destruct (mapM_with_dt (groupby_sum period revenue f)) as (ms & Hms & Hk & Hall).
  { intros e He. apply Hok. apply groupby_sum_In in He. apply He. }
  exists ms. unfold monthly_sales. rewrite Hms. simpl.
  split; [reflexivity|]. split.
  - rewrite Hk. apply groupby_sum_keys.
  - intros m Hm. destruct (Hall m Hm) as [Hin Hd].
    apply groupby_sum_In in Hin. destruct Hin as [Hp Hv].
    split; [exact Hp|]. split; [exact Hv | exact Hd].
Qed.

Lemma month_ok_inj `{Pandas} (f : DataFrame) (m m' : MonthRow) :
  month_ok f m -> month_ok f m' -> m_period m = m_period m' -> m = m'.
Proof.
  intros (_ & Hs & Hd) (_ & Hs' & Hd') Hp.
  destruct m as [p s d], m' as [p' s' d']; simpl in *. subst p'.
  rewrite Hd in Hd'. injection Hd' as ->. now subst.
Qed.

Lemma sorted_last {A : Type} (key : A -> Q) (L : list A) (m : A) :
  StronglySorted (fun a b => key a <= key b) L ->
  In m L ->
  (forall x, In x L -> key x < key m \/ x = m) ->
  exists L', L = (L' ++ [m])%list.
Proof.
  intros Hs Hin Hmax.
  destruct (exists_last (l := L)) as (L' & z & ->).
  { intros ->. contradiction. }
  exists L'. f_equal. f_equal.
  destruct (Hmax z) as [Hlt|Hz]; [apply in_or_app; right; now left| |exact Hz].
  exfalso. apply in_app_or in Hin. destruct Hin as [Hin|[->|[]]].
  - apply StronglySorted_app_iff in Hs. destruct Hs as (_ & _ & Hcross).
    rewrite Forall_forall in Hcross. specialize (Hcross m Hin).
    inversion Hcross as [|? ? Hmz _]; subst.
    exact (Qlt_not_le _ _ Hlt Hmz).
  - revert Hlt. apply Qlt_irrefl.
Qed.

Lemma iloc_neg_last (l : list Q) (a b : Q) :
  iloc_neg (l ++ [a; b]) 1 = b /\ iloc_neg (l ++ [a; b]) 2 = a.
Proof.
  unfold iloc_neg. rewrite length_app. simpl. split.
  - rewrite app_nth2 by lia.
    replace (List.length l + 2 - 1 - List.length l)%nat with 1%nat by lia.
    reflexivity.
  - rewrite app_nth2 by lia.
    replace (List.length l + 2 - 2 - List.length l)%nat with 0%nat by lia.
    reflexivity.
Qed.

(** The two last rows of the sorted monthly table are the chronologically
    last two periods present. *)
Lemma monthly_sales_last_two `{Pandas} (f : DataFrame) (p1 p2 : string) :
  latest_present f p1 -> previous_present f p1 p2 ->
  exists L d1 d2,
    monthly_sales f
    = Ok (L ++ [mkMonthRow p2 (period_sum f p2) d2;
                mkMonthRow p1 (period_sum f p1) d1])%list.
Proof.
  intros [Hp1 Hlast] (Hp2 & Hne & Hprev).
  assert (Hc := Hlast p2 Hp2 Hne). unfold chron_lt in Hc.
  destruct (dt_of p2) as [d2|] eqn:Ed2; [|contradiction].
  destruct (dt_of p1) as [d1|] eqn:Ed1; [|contradiction].
  assert (Hok : forall p, In p (map period f) -> dt_of p <> None).
  { intros p Hp. destruct (string_dec p p1) as [->|Hn]; [congruence|].
    specialize (Hlast p Hp Hn). unfold chron_lt in Hlast.
    destruct (dt_of p); [discriminate|contradiction]. }
  destruct (monthly_sales_spec f Hok) as (ms & Hms & Hkeys & Hall).
  set (key := fun m : MonthRow => inject_Z (m_dt m)) in *.
  set (m1 := mkMonthRow p1 (period_sum f p1) d1).
  set (m2 := mkMonthRow p2 (period_sum f p2) d2).
  assert (Hm1 : month_ok f m1) by (repeat split; assumption).
  assert (Hm2 : month_ok f m2) by (repeat split; assumption).
  assert (Hin : forall m, month_ok f m -> In m ms).
  { intros m Hm. assert (Hp : In (m_period m) (map m_period ms)).
    { rewrite Hkeys. apply sorted_unique_In. apply Hm. }
    apply in_map_iff in Hp. destruct Hp as (m' & Hp & Hm').
    rewrite <- (month_ok_inj f m' m); auto. }
  assert (Hnd : NoDup ms).
  { apply (NoDup_map_inv m_period). rewrite Hkeys. apply sorted_unique_NoDup. }
  assert (Hperm := sort_values_perm key true ms).
  assert (Hsorted := sort_values_ascending key ms).
  destruct (sorted_last key (sort_values key true ms) m1) as (L1 & HL1).
  { exact Hsorted. }
  { apply Permutation_in with (l := ms); [now apply Permutation_sym|].
    now apply Hin. }
  { intros x Hx. apply (Permutation_in _ Hperm) in Hx.
    assert (Hxok := Hall x Hx).
    destruct (string_dec (m_period x) p1) as [E|E].
    - right. now apply (month_ok_inj f).
    - left. destruct Hxok as (Hxin & _ & Hxd).
      specialize (Hlast _ Hxin E). unfold chron_lt in Hlast.
      rewrite Hxd, Ed1 in Hlast. unfold key. now rewrite <- Zlt_Qlt. }
  assert (Hnd' : NoDup (L1 ++ [m1])).
  { rewrite <- HL1. apply (Permutation_NoDup (Permutation_sym Hperm) Hnd). }
  assert (Hsub : forall x, In x L1 -> In x ms /\ x <> m1).
  { intros x Hx. split.
    - apply (Permutation_in _ Hperm). rewrite HL1. apply in_or_app. now left.
    - intros ->. apply NoDup_remove_2 in Hnd'. rewrite app_nil_r in Hnd'.
      contradiction. }
  rewrite HL1 in Hsorted. apply StronglySorted_app_iff in Hsorted.
  destruct Hsorted as (HsL1 & _ & _).
  destruct (sorted_last key L1 m2) as (L2 & HL2).
  { exact HsL1. }
  { assert (Hm2in : In m2 (L1 ++ [m1])).
    { rewrite <- HL1. apply Permutation_in with (l := ms);
        [now apply Permutation_sym | now apply Hin]. }
    apply in_app_or in Hm2in. destruct Hm2in as [Hm2in|[Hm2in|[]]]; [exact Hm2in|].
    exfalso. apply Hne. now inversion Hm2in. }
  { intros x Hx. destruct (Hsub x Hx) as [Hxms Hxne].
    assert (Hxok := Hall x Hxms).
    destruct (string_dec (m_period x) p2) as [E|E].
    - right. now apply (month_ok_inj f).
    - left. destruct (string_dec (m_period x) p1) as [E1|E1].
      + exfalso. apply Hxne. now apply (month_ok_inj f).
      + destruct Hxok as (Hxin & _ & Hxd).
        specialize (Hprev _ Hxin E1 E). unfold chron_lt in Hprev.
        rewrite Hxd, Ed2 in Hprev. unfold key. now rewrite <- Zlt_Qlt. }
  exists L2, d1, d2. rewrite Hms, HL1, HL2, <- app_assoc. reflexivity.
Qed.

Lemma mom_of_last_two (L : list MonthRow) (m2 m1 : MonthRow) :
  mom_of (L ++ [m2; m1])
  = if negb (Qeq_bool (m_sales m2) 0)
    then (m_sales m1 - m_sales m2) / m_sales m2 * 100
    else 0.
Proof.
  unfold mom_of.
  assert (Hlen : (2 <=? List.length (L ++ [m2; m1]))%nat = true).
  { apply Nat.leb_le. rewrite length_app. simpl. lia. }
  rewrite Hlen, map_app. cbn [map].
  destruct (iloc_neg_last (map m_sales L) (m_sales m2) (m_sales m1)) as [-> ->].
  reflexivity.
Qed.

(** Discharges membership and chronology side conditions on a literal
    frame. *)
Ltac on_each_period Hp :=
  simpl in Hp;
  repeat (destruct Hp as [<-|Hp]);
  try contradiction; intros; try congruence; try discriminate;
  try (vm_compute; reflexivity).

(** C6.  With [p1] the chronologically last period present in the filtered
    frame and [p2] the last one before it (by the derived date, whatever
    months lie between them), and the revenue of [p2] not zero, the
    month-over-month change is (latest - previous) / previous * 100. *)
Theorem mom_compares_last_two_present (P : Pandas) (f : DataFrame)
    (p1 p2 : string) :
  latest_present f p1 ->
  previous_present f p1 p2 ->
  ~ period_sum f p2 == 0 ->
  mom f = Ok ((period_sum f p1 - period_sum f p2) / period_sum f p2 * 100).
Proof.
  intros H1 H2 Hnz.
  destruct (monthly_sales_last_two f p1 p2 H1 H2) as (L & d1 & d2 & Hms).
  unfold mom. rewrite Hms. cbn [bind]. rewrite mom_of_last_two. cbn [m_sales].
  destruct (Qeq_bool (period_sum f p2) 0) eqn:E; [|reflexivity].
  apply Qeq_bool_iff in E. contradiction.
Qed.

Lemma mom_compares_last_two_present_witness :
  @latest_present stable_pandas gap_month "2024-06" /\
  @previous_present stable_pandas gap_month "2024-06" "2024-04" /\
  ~ period_sum gap_month "2024-04" == 0 /\
  @mom stable_pandas gap_month = Ok ((150 - 100) / 100 * 100).
Proof.
  assert (H1 : @latest_present stable_pandas gap_month "2024-06").
  { split; [simpl; auto|]. intros p Hp. on_each_period Hp. }
  assert (H2 : @previous_present stable_pandas gap_month "2024-06" "2024-04").
  { split; [simpl; auto|]. split; [discriminate|].
    intros p Hp. on_each_period Hp. }
  assert (H3 : ~ period_sum gap_month "2024-04" == 0) by (vm_compute; discriminate).
  split; [exact H1|]. split; [exact H2|]. split; [exact H3|].
  exact (mom_compares_last_two_present stable_pandas gap_month
           "2024-06" "2024-04" H1 H2 H3).
Defined.

(** C5.  On a filtered frame whose period labels are dates, the
    month-over-month change is the number 0 when fewer than two distinct
    periods are present, and when the revenue of the chronologically
    previous period sums to zero. *)
Theorem mom_zero_edge_cases (P : Pandas) (f : DataFrame) :
  (forall p, In p (map period f) -> dt_of p <> None) ->
  ((List.length (sorted_unique (map period f)) < 2)%nat -> mom f = Ok 0) /\
  (forall p1 p2, latest_present f p1 -> previous_present f p1 p2 ->
                 period_sum f p2 == 0 -> mom f = Ok 0).
Proof.
  intros Hok. split.
  - intros Hlen. destruct (monthly_sales_spec f Hok) as (ms & Hms & Hkeys & _).
    unfold mom. rewrite Hms. cbn [bind]. unfold mom_of.
    rewrite sort_values_length.
    rewrite <- (length_map m_period), Hkeys.
    apply Nat.leb_gt in Hlen. now rewrite Hlen.
  - intros p1 p2 H1 H2 Hz.
    destruct (monthly_sales_last_two f p1 p2 H1 H2) as (L & d1 & d2 & Hms).
    unfold mom. rewrite Hms. cbn [bind]. rewrite mom_of_last_two. cbn [m_sales].
    apply Qeq_bool_iff in Hz. now rewrite Hz.
Qed.

Lemma mom_zero_edge_cases_witness :
  (forall p, In p (map period zero_previous) -> @dt_of stable_pandas p <> None) /\
  period_sum zero_previous "2024-01" == 0 /\
  @mom stable_pandas zero_previous = Ok 0 /\
  @mom stable_pandas single_period = Ok 0.
Proof.
  assert (H0 : forall p, In p (map period zero_previous) ->
                         @dt_of stable_pandas p <> None).
  { intros p Hp. on_each_period Hp. }
  assert (H1 : @latest_present stable_pandas zero_previous "2024-02").
  { split; [simpl; auto|]. intros p Hp. on_each_period Hp. }
  assert (H2 : @previous_present stable_pandas zero_previous "2024-02" "2024-01").
  { split; [simpl; auto|]. split; [discriminate|].
    intros p Hp. on_each_period Hp. }
  assert (H3 : period_sum zero_previous "2024-01" == 0) by reflexivity.
  assert (H4 : forall p, In p (map period single_period) ->
                         @dt_of stable_pandas p <> None).
  { intros p Hp. on_each_period Hp. }
  split; [exact H0|]. split; [exact H3|]. split.
  - exact (proj2 (mom_zero_edge_cases stable_pandas zero_previous H0)
             "2024-02" "2024-01" H1 H2 H3).
  - apply (proj1 (mom_zero_edge_cases stable_pandas single_period H4)).
    vm_compute. lia.
Defined.

(** ** Sums *)





Lemma isin_In (s : string) (l : list string) : isin s l = true <-> In s l.
Proof.
  unfold isin. rewrite existsb_exists. split.
  - intros (y & Hy & E). apply String.eqb_eq in E. now subst.
  - intros Hs. exists s. split; [exact Hs | apply String.eqb_refl].
Qed.


(** ** Pivot *)

Lemma pair_eqb_eq (a b : string * string) : pair_eqb a b = true <-> a = b.
Proof.
  unfold pair_eqb. rewrite andb_true_iff, !String.eqb_eq.
  destruct a, b; simpl. split.
  - now intros [-> ->].
  - now intros [= -> ->].
Qed.

Lemma lookup2_labelled (g : string * string -> Q) (ks : list (string * string))
    (k : string * string) :
  lookup2 k (map (fun cp => (cp, g cp)) ks)
  = if existsb (pair_eqb k) ks then Some (g k) else None.
Proof.
  induction ks as [|x t IH]; simpl; [reflexivity|].
  destruct (pair_eqb k x) eqn:E; simpl.
  - apply pair_eqb_eq in E. now subst.
  - exact IH.
Qed.

(** Every cell of the rectangle holds the revenue sum of its (channel,
    period) group, which is 0 for a pair that was not observed. *)
Lemma pivot_cell (f : DataFrame) (c p : string) :
  In c (sorted_unique (map channel f)) ->
  In p (sorted_unique (map period f)) ->
  match lookup2 (c, p) (agged f) with
  | Some v => v
  | None => 0
  end = series_sum (map revenue (pair_group c p f)).
Proof.
  intros Hc Hp. unfold agged.
  rewrite (lookup2_labelled
             (fun cp => series_sum (map revenue (pair_group (fst cp) (snd cp) f)))).
  destruct (existsb _ _) eqn:Ex; [reflexivity|].
  destruct (pair_group c p f) as [|r g] eqn:Eg; [reflexivity|].
  exfalso.
  assert (Hin : existsb (pair_eqb (c, p))
                  (filter (fun cp => negb (empty (pair_group (fst cp) (snd cp) f)))
                          (list_prod (sorted_unique (map channel f))
                                     (sorted_unique (map period f)))) = true).
  { apply existsb_exists. exists (c, p). split.
    - apply filter_In. split; [now apply in_prod|]. simpl. now rewrite Eg.
    - now apply pair_eqb_eq. }
  congruence.
Qed.


Lemma pivot_table_rows (f : DataFrame) :
  pv_rows (pivot_table f)
  = map (fun c => (c, map (fun p => series_sum (map revenue (pair_group c p f)))
                          (sorted_unique (map period f))))
        (sorted_unique (map channel f)).
Proof.
  unfold pivot_table, unstack. simpl.
  apply map_ext_in. intros c Hc. f_equal.
  apply map_ext_in. intros p Hp. now apply pivot_cell.
Qed.



Lemma pivot_table_index (f : DataFrame) :
  map fst (pv_rows (pivot_table f)) = sorted_unique (map channel f).
Proof.
  unfold pivot_table, unstack. cbn [pv_rows]. rewrite map_map. apply map_id.
Qed.

(** C7 (as amended).  When the anchor period is among the pivot's columns,
    the rows are the pivot's rows reordered by the anchor column's value
    descending.  When it is not, the table is left as [pivot_table] built
    it, and that row order is the ascending order of the distinct channel
    keys (the sorted group index), whatever the order in which the channels
    first occur in the filtered data. *)
Theorem pivot_rows_sorted_by_anchor_or_key (P : Pandas) (f : DataFrame)
    (latest : string) :
  (isin latest (pv_columns (pivot_table f)) = true ->
   pv_columns (sort_pivot latest (pivot_table f)) = pv_columns (pivot_table f) /\
   Permutation (pv_rows (sort_pivot latest (pivot_table f)))
               (pv_rows (pivot_table f)) /\
   StronglySorted
     (fun a b => cell (pv_columns (pivot_table f)) latest b
                 <= cell (pv_columns (pivot_table f)) latest a)
     (pv_rows (sort_pivot latest (pivot_table f)))) /\
  (isin latest (pv_columns (pivot_table f)) = false ->
   sort_pivot latest (pivot_table f) = pivot_table f /\
   map fst (pv_rows (sort_pivot latest (pivot_table f)))
   = sorted_unique (map channel f) /\
   StronglySorted str_lt
     (map fst (pv_rows (sort_pivot latest (pivot_table f))))).
Proof.
  split; intros Hin; unfold sort_pivot; rewrite Hin.
  - cbn [pv_columns pv_rows]. split; [reflexivity|]. split.
    + apply sort_values_perm.
    + apply sort_values_descending.
  - split; [reflexivity|]. rewrite pivot_table_index.
    split; [reflexivity | apply sorted_unique_sorted].
Qed.

Lemma pivot_rows_sorted_by_anchor_or_key_witness :
  isin "2024-06" (pv_columns (pivot_table b_before_a)) = true /\
  map fst (pv_rows (@sort_pivot stable_pandas "2024-06" (pivot_table b_before_a)))
  = ["C"; "A"; "B"] /\
  isin "2024-07" (pv_columns (pivot_table b_before_a)) = false /\
  @sort_pivot stable_pandas "2024-07" (pivot_table b_before_a)
  = pivot_table b_before_a /\
  StronglySorted
    (fun a b => cell (pv_columns (pivot_table b_before_a)) "2024-06" b
                <= cell (pv_columns (pivot_table b_before_a)) "2024-06" a)
    (pv_rows (@sort_pivot stable_pandas "2024-06" (pivot_table b_before_a))).
Proof.
  assert (H1 : isin "2024-06" (pv_columns (pivot_table b_before_a)) = true)
    by reflexivity.
  assert (H2 : isin "2024-07" (pv_columns (pivot_table b_before_a)) = false)
    by reflexivity.
  split; [exact H1|]. split; [reflexivity|]. split; [exact H2|]. split.
  - exact (proj1 (proj2 (pivot_rows_sorted_by_anchor_or_key
                           stable_pandas b_before_a "2024-07") H2)).
  - exact (proj2 (proj2 (proj1 (pivot_rows_sorted_by_anchor_or_key
                                  stable_pandas b_before_a "2024-06") H1))).
Defined.

(** C7 as the specification states it does not hold: all months are
    selected and channel C is filtered out, so the anchor 2024-06 is not a
    column and the rows are left alone; they stand in key order A, B while
    the channels emerge in the filtered data as B, A. *)
Lemma pivot_unsorted_rows_are_not_in_emergence_order :
  latest_month ["2024-05"; "2024-06"] = Ok "2024-06" /\
  isin "2024-06" (pv_columns (pivot_table a_and_b_only)) = false /\
  map fst (pv_rows (@sort_pivot stable_pandas "2024-06"
                                (pivot_table a_and_b_only)))
  = ["A"; "B"] /\
  emergence_order a_and_b_only = ["B"; "A"] /\
  map fst (pv_rows (@sort_pivot stable_pandas "2024-06"
                                (pivot_table a_and_b_only)))
  <> emergence_order a_and_b_only.
Proof.
  repeat split; try reflexivity. discriminate.
Qed.

(** ** Normalisation *)





(** ** The whole run *)

Lemma filtered_df_no_months (df : DataFrame)
    (selected_channels selected_items : list string) :
  filtered_df df [] selected_channels selected_items = [].
Proof.
  unfold filtered_df. induction df as [|r t IH]; [reflexivity|].
  simpl. exact IH.
Qed.

Lemma insert_str_In (k y : string) (l : list string) :
  In y (insert_str k l) <-> y = k \/ In y l.
Proof.
  induction l as [|x t IH]; simpl.
  - intuition.
  - destruct (String_as_OT.compare k x); simpl; rewrite ?IH; intuition.
Qed.

Lemma py_sorted_In (y : string) (l : list string) :
  In y (py_sorted l) <-> In y l.
Proof.
  induction l as [|x t IH]; simpl; [reflexivity|].
  rewrite insert_str_In, IH. intuition.
Qed.

Lemma insert_str_sorted (k : string) (l : list string) :
  StronglySorted str_le l -> StronglySorted str_le (insert_str k l).
Proof.
  induction 1 as [|x t Hs IH Hx]; simpl.
  - constructor; constructor.
  - assert (Hfront : str_le k x -> StronglySorted str_le (k :: x :: t)).
    { intros Hkx. constructor; [constructor; assumption|].
      constructor; [exact Hkx|].
      eapply Forall_impl; [|exact Hx].
      intros z [->|Hz]; [exact Hkx|].
      destruct Hkx as [->|Hkx]; right; [exact Hz|].
      eapply str_lt_trans; eassumption. }
    destruct (String_as_OT.compare k x) eqn:E.
    + apply Hfront. left. now apply str_compare_eq.
    + apply Hfront. right. exact E.
    + constructor; [exact IH|].
      apply Forall_forall. intros z Hz. apply insert_str_In in Hz.
      destruct Hz as [->|Hz].
      * right. now apply str_compare_gt.
      * rewrite Forall_forall in Hx. now apply Hx.
Qed.

Lemma py_sorted_sorted (l : list string) : StronglySorted str_le (py_sorted l).
Proof.
  induction l as [|x t IH]; simpl.
  - constructor.
  - apply insert_str_sorted, IH.
Qed.

(** The anchor period is the greatest of the selected periods. *)
Lemma latest_month_is_max (selected_months : list string) (m : string) :
  latest_month selected_months = Ok m ->
  In m selected_months /\ forall x, In x selected_months -> str_le x m.
Proof.
  unfold latest_month. intros Hm.
  destruct (rev (py_sorted selected_months)) as [|y t] eqn:Er; [discriminate|].
  injection Hm as ->.
  assert (Hs : py_sorted selected_months = (rev t ++ [m])%list).
  { rewrite <- (rev_involutive (py_sorted selected_months)), Er. reflexivity. }
  split.
  - apply py_sorted_In. rewrite Hs. apply in_or_app. right. now left.
  - intros x Hx. apply py_sorted_In in Hx. rewrite Hs in Hx.
    assert (Hsorted := py_sorted_sorted selected_months). rewrite Hs in Hsorted.
    apply in_app_or in Hx. destruct Hx as [Hx|[->|[]]]; [|now left].
    apply StronglySorted_app_iff in Hsorted. destruct Hsorted as (_ & _ & Hc).
    rewrite Forall_forall in Hc. specialize (Hc x Hx).
    now inversion Hc.
Qed.

Lemma latest_month_defined (selected_months : list string) :
  selected_months <> [] -> exists m, latest_month selected_months = Ok m.
Proof.
  intros Hne. unfold latest_month.
  destruct (rev (py_sorted selected_months)) as [|y t] eqn:Er; [|eauto].
  exfalso. destruct selected_months as [|x l]; [congruence|].
  assert (Hin : In x (rev (py_sorted (x :: l)))).
  { apply -> in_rev. apply py_sorted_In. now left. }
  rewrite Er in Hin. exact Hin.
Qed.

(** With at least one month selected, and the period labels of the
    filtered rows dates, the run below [load_data] raises nothing. *)
Lemma dashboard_defined (P : Pandas) (df : DataFrame)
    (selected_months selected_channels selected_items : list string) :
  selected_months <> [] ->
  (forall p,
      In p (map period
              (filtered_df df selected_months selected_channels selected_items)) ->
      dt_of p <> None) ->
  exists d,
    dashboard df selected_months selected_channels selected_items = Ok d.
Proof.
  intros Hne Hok. unfold dashboard.
  set (f := filtered_df df selected_months selected_channels selected_items) in *.
  destruct (monthly_sales_spec f Hok) as (ms & Hms & _).
  unfold mom, monthly_trend. rewrite Hms. cbn [bind].
  destruct (top_channel_defined f) as (k & ->). cbn [bind].
  destruct (latest_month_defined selected_months Hne) as (m & ->). cbn [bind].
  eauto.
Qed.

(** C1, on the code: with no month selected the filtered frame is empty,
    the KPI block and the rankings go through on it, and the run stops at
    [sorted(selected_months)[-1]] with IndexError, whatever the frame and
    the two other selections. *)
Theorem dashboard_raises_on_empty_month_selection (P : Pandas) (df : DataFrame)
    (selected_channels selected_items : list string) :
  mom (filtered_df df [] selected_channels selected_items) = Ok 0 /\
  top_channel (filtered_df df [] selected_channels selected_items) = Ok "-" /\
  latest_month [] = Raise IndexError /\
  dashboard df [] selected_channels selected_items = Raise IndexError.
Proof.
  assert (Hmom : mom [] = Ok 0).
  { unfold mom, monthly_sales. simpl. unfold sort_values.
    rewrite argsort_nil. reflexivity. }
  unfold dashboard. rewrite filtered_df_no_months.
  split; [exact Hmom|]. split; [reflexivity|]. split; [reflexivity|].
  rewrite Hmom. reflexivity.
Qed.

(** * Further properties of the script *)

(** ** Loading *)





(** X2.  Every record of the loaded frame has a date that parsed and is not
    earlier than the cut ([today] minus twelve months): rows whose date
    cell did not parse are dropped with the old ones; and the frame never
    has more records than the sheet has data rows. *)
Theorem load_data_keeps_the_window (P : Pandas) (one_year_ago : Z)
    (data : list (list string)) (df : DataFrame) :
  load_data one_year_ago data = Ok df ->
  Forall (fun r => exists d, ship_date r = Some d /\ (one_year_ago <= d)%Z) df /\
  (List.length df <= List.length data - 1)%nat.
Proof.
  unfold load_data. destruct data as [|header body]; [discriminate|].
  destruct (required_columns header) as [cols|e]; [|discriminate].
  cbn [bind]. intros [= <-]. split.
  - apply Forall_forall. intros r Hr. apply filter_In in Hr.
    destruct Hr as [_ Hw]. unfold in_window in Hw.
    destruct (ship_date r) as [d|]; [|discriminate].
    exists d. split; [reflexivity | now apply Z.leb_le].
  - eapply Nat.le_trans; [apply filter_length_le|].
    rewrite length_map. simpl. lia.
Qed.

Lemma load_data_keeps_the_window_witness :
  exists df,
    @load_data stable_pandas june_2023 mixed_dates_sheet = Ok df /\
    List.length df = 1%nat /\
    Forall (fun r => exists d, ship_date r = Some d /\ (june_2023 <= d)%Z) df.
Proof.
  eexists. split; [vm_compute; reflexivity|]. split; [reflexivity|].
  refine (proj1 (load_data_keeps_the_window stable_pandas june_2023
                   mixed_dates_sheet _ _)).
  vm_compute. reflexivity.
Defined.

(** X3.  What [.str.replace(",", "", regex=False)] leaves: no comma, and a
    string without commas untouched. *)
Theorem strip_commas_removes_every_comma (s : string) :
  ~ In ","%char (list_ascii_of_string (strip_commas s)) /\
  (~ In ","%char (list_ascii_of_string s) -> strip_commas s = s).
Proof.
  induction s as [|c t [IH1 IH2]]; simpl.
  - split; [tauto | reflexivity].
  - destruct (Ascii.eqb c ","%char) eqn:E.
    + split; [exact IH1|]. intros Hn. exfalso. apply Hn. left.
      now apply Ascii.eqb_eq in E.
    + apply Ascii.eqb_neq in E. simpl. split.
      * intros [Hc|Hin]; [congruence | now apply IH1].
      * intros Hn. f_equal. apply IH2. intros Hin. apply Hn. now right.
Qed.

Lemma strip_commas_removes_every_comma_witness :
  ~ In ","%char (list_ascii_of_string "1500") /\
  strip_commas "1500" = "1500" /\ strip_commas "1,2,34,567" = "1234567".
Proof.
  assert (H : ~ In ","%char (list_ascii_of_string "1500")).
  { simpl. intros [E|[E|[E|[E|[]]]]]; discriminate E. }
  split; [exact H|]. split; [|reflexivity].
  exact (proj2 (strip_commas_removes_every_comma "1500") H).
Defined.

(** ** Filters *)

Lemma isin_sorted_unique (x : string) (l : list string) :
  In x l -> isin x (sorted_unique l) = true.
Proof.
  intros Hx. apply isin_In, sorted_unique_In, Hx.
Qed.

(** X4.  With the three "select all" boxes ticked (their default) the
    filter keeps the loaded frame as it is, whatever the multiselects
    hold. *)
Theorem select_all_keeps_the_frame (df : DataFrame)
    (picked_months picked_channels picked_items : list string) :
  filtered_df df
    (selection true (all_months df) picked_months)
    (selection true (all_channels df) picked_channels)
    (selection true (all_items df) picked_items)
  = df.
Proof.
  unfold selection, filtered_df, all_months, all_channels, all_items.
  apply forallb_filter_id. apply forallb_forall. intros r Hr.
  rewrite !isin_sorted_unique; [reflexivity | | |]; now apply in_map.
Qed.

(** X5.  An empty selection on any one of the three dimensions empties the
    filtered frame, whatever the two others are. *)
Theorem empty_selection_empties_the_frame (df : DataFrame)
    (months channels items : list string) :
  filtered_df df [] channels items = [] /\
  filtered_df df months [] items = [] /\
  filtered_df df months channels [] = [].
Proof.
  unfold filtered_df.
  repeat split; induction df as [|r t IH]; simpl; try reflexivity;
    rewrite ?andb_false_r; simpl; exact IH.
Qed.

(** X6.  The filter reads each selection as a set: two selections with the
    same members, in whatever order and multiplicity, give the same
    filtered frame. *)
Theorem filter_reads_selections_as_sets (df : DataFrame)
    (m m' c c' i i' : list string) :
  (forall x, In x m <-> In x m') ->
  (forall x, In x c <-> In x c') ->
  (forall x, In x i <-> In x i') ->
  filtered_df df m c i = filtered_df df m' c' i'.
Proof.
  intros Hm Hc Hi. unfold filtered_df. apply filter_ext. intros r.
  assert (Hsame : forall x l l', (forall y, In y l <-> In y l') ->
                                 isin x l = isin x l').
  { intros x l l' H. apply eq_true_iff_eq. rewrite !isin_In. apply H. }
  now rewrite (Hsame _ m m' Hm), (Hsame _ c c' Hc), (Hsame _ i i' Hi).
Qed.

Lemma filter_reads_selections_as_sets_witness :
  (forall x, In x ["2024-05"; "2024-06"] <-> In x ["2024-06"; "2024-05"; "2024-06"]) /\
  filtered_df b_before_a ["2024-05"; "2024-06"] ["A"; "C"] ["Tea"]
  = filtered_df b_before_a ["2024-06"; "2024-05"; "2024-06"] ["C"; "A"] ["Tea"].
Proof.
  assert (H1 : forall x, In x ["2024-05"; "2024-06"]
                         <-> In x ["2024-06"; "2024-05"; "2024-06"])
    by (intros x; simpl; tauto).
  split; [exact H1|].
  apply (filter_reads_selections_as_sets b_before_a _ _ _ _ _ _ H1).
  - intros x. simpl. tauto.
  - intros x. simpl. tauto.
Defined.

Lemma filtered_df_In (df : DataFrame) (m c i : list string) (r : Row) :
  In r (filtered_df df m c i) <->
  In r df /\ In (period r) m /\ In (channel r) c /\ In (product r) i.
Proof.
  unfold filtered_df. rewrite filter_In, !andb_true_iff, !isin_In. tauto.
Qed.

(** X7.  What is charted was selected: every channel of [channel_sales],
    every product of [item_rank], every row label and every column label
    of the pivot of the filtered frame is one of the selected channels,
    products and months, and occurs in the loaded frame. *)
Theorem charts_show_selected_keys_only (P : Pandas) (df : DataFrame)
    (months channels items : list string) (latest : string) :
  (forall k, In k (map fst (channel_sales (filtered_df df months channels items))) ->
             In k channels /\ In k (map channel df)) /\
  (forall k, In k (map fst (item_rank (filtered_df df months channels items))) ->
             In k items /\ In k (map product df)) /\
  (forall k, In k (map fst (pv_rows (sort_pivot latest
                       (pivot_table (filtered_df df months channels items))))) ->
             In k channels /\ In k (map channel df)) /\
  (forall k, In k (pv_columns (pivot_table (filtered_df df months channels items))) ->
             In k months /\ In k (map period df)).
Proof.
  set (f := filtered_df df months channels items).
  assert (Hkey : forall (key : Row -> string) k,
             In k (sorted_unique (map key f)) ->
             exists r, In r df /\ In (period r) months /\ In (channel r) channels
                       /\ In (product r) items /\ key r = k).
  { intros key k Hk. apply sorted_unique_In, in_map_iff in Hk.
    destruct Hk as (r & <- & Hr). apply filtered_df_In in Hr.
    exists r. tauto. }
  split; [|split; [|split]].
  - intros k Hk.
    apply (Permutation_in _ (Permutation_map fst (sort_values_perm snd false _)))
      in Hk.
    rewrite groupby_sum_keys in Hk.
    destruct (Hkey channel k Hk) as (r & Hr & _ & Hc & _ & <-).
    split; [exact Hc | now apply in_map].
  - intros k Hk.
    apply (Permutation_in _ (Permutation_map fst (sort_values_perm snd false _)))
      in Hk.
    rewrite groupby_sum_keys in Hk.
    destruct (Hkey product k Hk) as (r & Hr & _ & _ & Hi & <-).
    split; [exact Hi | now apply in_map].
  - intros k Hk.
    assert (Hk' : In k (map fst (pv_rows (pivot_table f)))).
    { unfold sort_pivot in Hk.
      destruct (isin _ (pv_columns (pivot_table f))); [|exact Hk].
      cbn [pv_rows] in Hk.
      exact (Permutation_in _ (Permutation_map fst (sort_values_perm _ false _)) Hk). }
    rewrite pivot_table_index in Hk'.
    destruct (Hkey channel k Hk') as (r & Hr & _ & Hc & _ & <-).
    split; [exact Hc | now apply in_map].
  - intros k Hk. unfold pivot_table, unstack in Hk. cbn [pv_columns] in Hk.
    destruct (Hkey period k Hk) as (r & Hr & Hm & _ & _ & <-).
    split; [exact Hm | now apply in_map].
Qed.

(** ** Grouped sums *)


Lemma mapM_with_dt_inv `{Pandas} (g : list (string * Q)) (ms : list MonthRow) :
  mapM with_dt g = Ok ms ->
  map (fun m => (m_period m, m_sales m)) ms = g /\
  Forall (fun m => dt_of (m_period m) = Some (m_dt m)) ms.
Proof.
  revert ms. induction g as [|e t IH]; intros ms; simpl.
  - intros [= <-]. split; [reflexivity | constructor].
  - unfold with_dt at 1.
    destruct (to_datetime (fst e ++ "-01")) as [d|] eqn:Ed; [|discriminate].
    cbn [bind]. destruct (mapM with_dt t) as [ms'|x]; [|discriminate].
    cbn [bind]. intros [= <-]. destruct (IH ms' eq_refl) as [Hg Hd].
    split.
    + simpl. rewrite Hg. now destruct e.
    + constructor; [exact Ed | exact Hd].
Qed.



(** X9.  A ranking has exactly one entry per distinct key of the filtered
    frame: its keys are pairwise distinct, there are as many entries as
    distinct keys, and an entry (c, v) is in [channel_sales] exactly when
    [c] is a channel of the frame and [v] is that channel's revenue sum. *)
Theorem ranking_has_one_entry_per_key (P : Pandas) (f : DataFrame) :
  NoDup (map fst (channel_sales f)) /\
  List.length (channel_sales f) = List.length (all_channels f) /\
  (forall c v, In (c, v) (channel_sales f) <->
               In c (map channel f) /\ v = channel_sum f c) /\
  NoDup (map fst (item_rank f)) /\
  List.length (item_rank f) = List.length (all_items f).
Proof.
  assert (Hnd : forall key, NoDup (map fst (sort_values snd false
                                              (groupby_sum key revenue f)))).
  { intros key.
    apply (Permutation_NoDup
             (Permutation_sym (Permutation_map fst (sort_values_perm snd false _)))).
    rewrite groupby_sum_keys. apply sorted_unique_NoDup. }
  assert (Hlen : forall key, List.length (sort_values snd false
                                            (groupby_sum key revenue f))
                             = List.length (sorted_unique (map key f))).
  { intros key. rewrite sort_values_length, <- (groupby_sum_keys key revenue f).
    now rewrite length_map. }
  split; [apply Hnd|]. split; [apply Hlen|]. split; [|split; [apply Hnd | apply Hlen]].
  intros c v. unfold channel_sales. split.
  - intros Hin. apply (Permutation_in _ (sort_values_perm snd false _)) in Hin.
    now apply groupby_sum_In in Hin.
  - intros Hin.
    apply (Permutation_in _ (Permutation_sym (sort_values_perm snd false _))).
    now apply groupby_sum_In.
Qed.

Lemma top_channel_is_max (f : DataFrame) :
  f <> [] ->
  exists k, top_channel f = Ok k /\ In k (map channel f) /\
            forall c, In c (map channel f) -> channel_sum f c <= channel_sum f k.
Proof.
  intros Hne.
  destruct (groupby_sum_nonempty channel revenue f Hne) as (e & t & Eg).
  destruct (first_max_spec t e) as (l1 & l2 & Heq & H1 & H2).
  remember (first_max e t) as m eqn:Em.
  assert (Hm : In m (groupby_sum channel revenue f)).
  { rewrite Eg, Heq. apply in_or_app. right. now left. }
  apply groupby_sum_In in Hm. destruct Hm as [Hmk Hmv].
  exists (fst m). split; [|split; [exact Hmk|]].
  - unfold top_channel. destruct f as [|r f']; [congruence|].
    cbn [empty negb]. rewrite Eg. simpl. now rewrite Em.
  - intros c Hc. unfold channel_sum at 2. rewrite <- Hmv.
    assert (Hin : In (c, channel_sum f c) (l1 ++ m :: l2)%list).
    { rewrite <- Heq, <- Eg. apply groupby_sum_In. now split. }
    apply in_app_or in Hin. rewrite Forall_forall in H1, H2.
    destruct Hin as [Hin|[Hin|Hin]].
    + apply Qlt_le_weak. exact (H1 _ Hin).
    + rewrite Hin. apply Qle_refl.
    + exact (H2 _ Hin).
Qed.

(** X10.  The KPI card and the bar chart agree: on a non-empty filtered
    frame the revenue of the top channel is the value of the first bar of
    [channel_sales]. *)
Theorem top_channel_is_worth_the_first_bar (P : Pandas) (f : DataFrame) :
  f <> [] ->
  exists k e rest,
    top_channel f = Ok k /\
    channel_sales f = e :: rest /\
    snd e == channel_sum f k.
Proof.
  intros Hne.
  destruct (top_channel_is_max f Hne) as (k & Hk & Hin & Hmax).
  assert (Hperm := sort_values_perm snd false (groupby_sum channel revenue f)).
  assert (Hsorted := sort_values_descending snd (groupby_sum channel revenue f)).
  fold (channel_sales f) in Hperm, Hsorted.
  assert (Hkin : In (k, channel_sum f k) (channel_sales f)).
  { apply (Permutation_in _ (Permutation_sym Hperm)).
    apply groupby_sum_In. now split. }
  destruct (channel_sales f) as [|e rest] eqn:Ec; [contradiction|].
  exists k, e, rest. split; [exact Hk|]. split; [reflexivity|].
  apply Qle_antisym.
  - assert (He : In e (groupby_sum channel revenue f)).
    { apply (Permutation_in _ Hperm). now left. }
    apply groupby_sum_In in He. destruct He as [Hek Hev].
    rewrite Hev. now apply Hmax.
  - destruct Hkin as [->|Hrest]; [apply Qle_refl|].
    apply StronglySorted_inv in Hsorted. destruct Hsorted as [_ Hall].
    rewrite Forall_forall in Hall. exact (Hall _ Hrest).
Qed.

Lemma top_channel_is_worth_the_first_bar_witness :
  b_before_a <> [] /\
  exists k e rest,
    top_channel b_before_a = Ok k /\
    @channel_sales stable_pandas b_before_a = e :: rest /\
    snd e == channel_sum b_before_a k.
Proof.
  assert (Hne : b_before_a <> []) by discriminate.
  split; [exact Hne|].
  exact (top_channel_is_worth_the_first_bar stable_pandas b_before_a Hne).
Defined.

(** ** Highlight *)

(** X11.  With three entries or fewer every entry is highlighted. *)
Theorem highlight_top3_flags_all_of_three_or_fewer (s : list Q) :
  (List.length s <= 3)%nat -> highlight_top3 s = map (fun _ => true) s.
Proof.
  intros Hlen. unfold highlight_top3, nlargest.
  rewrite firstn_all2
    by (rewrite (Permutation_length (sort_desc_perm s)); exact Hlen).
  apply map_ext_in. intros v Hv. unfold q_in. apply existsb_exists.
  exists v. split; [|apply Qeq_bool_refl].
  apply (Permutation_in _ (Permutation_sym (sort_desc_perm s))). exact Hv.
Qed.

Lemma highlight_top3_flags_all_of_three_or_fewer_witness :
  (List.length [5; 0; 5] <= 3)%nat /\ highlight_top3 [5; 0; 5] = [true; true; true].
Proof.
  assert (H : (List.length [5; 0; 5] <= 3)%nat) by (simpl; lia).
  split; [exact H|].
  exact (highlight_top3_flags_all_of_three_or_fewer [5; 0; 5] H).
Defined.

Lemma sort_desc_of_sorted (s : list Q) :
  StronglySorted (fun a b => b <= a) s -> sort_desc s = s.
Proof.
  unfold sort_desc, stable_argsort.
  induction 1 as [|a t Hs IH Ha]; [reflexivity|].
  change (isort_with Qle_bool Qopp (a :: t))
    with (insert_with Qle_bool Qopp a (isort_with Qle_bool Qopp t)).
  rewrite IH. destruct t as [|y t']; [reflexivity|].
  simpl. inversion Ha as [|? ? Hya _]; subst.
  apply Qopp_le_compat in Hya. apply Qle_bool_iff in Hya. now rewrite Hya.
Qed.

Lemma top_rows_flagged (s : list Q) (i : nat) :
  StronglySorted (fun a b => b <= a) s ->
  (i < 3)%nat -> (i < List.length s)%nat ->
  nth i (highlight_top3 s) false = true.
Proof.
  intros Hs Hi Hlen. unfold highlight_top3, nlargest.
  rewrite (sort_desc_of_sorted s Hs).
  rewrite (nth_indep _ false (q_in 0 (firstn 3 s)))
    by (now rewrite length_map).
  rewrite (map_nth (fun v => q_in v (firstn 3 s)) s 0 i).
  unfold q_in. apply existsb_exists. exists (nth i s 0).
  split; [|apply Qeq_bool_refl].
  assert (E : nth i (firstn 3 s) 0 = nth i s 0).
  { rewrite nth_firstn. apply Nat.ltb_lt in Hi. now rewrite Hi. }
  rewrite <- E. apply nth_In. rewrite length_firstn. lia.
Qed.

(** X12.  The sort and the highlight agree: the first three rows of the
    product ranking are highlighted, and when the anchor period is a column
    of the pivot, so are the first three cells of that column in the sorted
    pivot. *)
Theorem first_three_rows_are_highlighted (P : Pandas) (f : DataFrame)
    (latest : string) (i : nat) :
  (i < 3)%nat ->
  ((i < List.length (item_rank f))%nat ->
   nth i (styled_rank f) false = true) /\
  (isin latest (pv_columns (pivot_table f)) = true ->
   (i < List.length (pv_rows (pivot_table f)))%nat ->
   nth i (styled_column
            (highlight_top3_pivot latest (sort_pivot latest (pivot_table f)))
            latest) false = true).
Proof.
  intros Hi. split.
  - intros Hlen. unfold styled_rank. apply top_rows_flagged.
    + apply (StronglySorted_map (fun a b => b <= a) snd).
      apply sort_values_descending.
    + exact Hi.
    + now rewrite length_map.
  - intros Hin Hlen.
    assert (Hcols : pv_columns (sort_pivot latest (pivot_table f))
                    = pv_columns (pivot_table f)).
    { unfold sort_pivot. now rewrite Hin. }
    rewrite highlight_top3_pivot_anchor by (now rewrite Hcols).
    apply top_rows_flagged; [|exact Hi|].
    + unfold column. rewrite Hcols.
      apply (StronglySorted_map (fun a b => b <= a)
                                (cell (pv_columns (pivot_table f)) latest)).
      unfold sort_pivot. rewrite Hin. cbn [pv_rows].
      apply sort_values_descending.
    + unfold column. rewrite length_map. unfold sort_pivot. rewrite Hin.
      cbn [pv_rows]. now rewrite sort_values_length.
Qed.

Lemma first_three_rows_are_highlighted_witness :
  (2 < 3)%nat /\
  (2 < List.length (@item_rank stable_pandas tie_at_third))%nat /\
  nth 2 (@styled_rank stable_pandas tie_at_third) false = true.
Proof.
  assert (H1 : (2 < 3)%nat) by lia.
  assert (H2 : (2 < List.length (@item_rank stable_pandas tie_at_third))%nat)
    by (vm_compute; lia).
  split; [exact H1|]. split; [exact H2|].
  exact (proj1 (first_three_rows_are_highlighted stable_pandas tie_at_third
                  "2024-05" 2 H1) H2).
Defined.

(** ** Pivot, further *)



Lemma sort_pivot_rows_perm `{Pandas} (latest : string) (pt : Pivot) :
  pv_columns (sort_pivot latest pt) = pv_columns pt /\
  Permutation (pv_rows (sort_pivot latest pt)) (pv_rows pt).
Proof.
  unfold sort_pivot. destruct (isin latest (pv_columns pt)).
  - cbn [pv_columns pv_rows]. split; [reflexivity | apply sort_values_perm].
  - split; [reflexivity | apply Permutation_refl].
Qed.

(** X13.  The displayed pivot is a rectangle: its columns are the distinct
    periods of the filtered frame in ascending order, its row labels are
    the distinct channels, each once, and every row has one cell per
    column; the anchor sort changes none of that. *)
Theorem pivot_is_a_rectangle (P : Pandas) (f : DataFrame) (latest : string) :
  pv_columns (sort_pivot latest (pivot_table f)) = all_months f /\
  StronglySorted str_lt (pv_columns (sort_pivot latest (pivot_table f))) /\
  Permutation (map fst (pv_rows (sort_pivot latest (pivot_table f))))
              (all_channels f) /\
  NoDup (map fst (pv_rows (sort_pivot latest (pivot_table f)))) /\
  Forall (fun row => List.length (snd row) = List.length (all_months f))
         (pv_rows (sort_pivot latest (pivot_table f))).
Proof.
  destruct (sort_pivot_rows_perm latest (pivot_table f)) as [Hc Hp].
  assert (Hidx : Permutation (map fst (pv_rows (sort_pivot latest (pivot_table f))))
                             (all_channels f)).
  { unfold all_channels. rewrite <- pivot_table_index.
    now apply Permutation_map. }
  split; [exact Hc|]. split; [rewrite Hc; apply sorted_unique_sorted|].
  split; [exact Hidx|]. split.
  - apply (Permutation_NoDup (Permutation_sym Hidx)), sorted_unique_NoDup.
  - apply (Permutation_Forall (Permutation_sym Hp)).
    rewrite pivot_table_rows. apply Forall_forall. intros row Hrow.
    apply in_map_iff in Hrow. destruct Hrow as (c & <- & _).
    cbn [snd]. now rewrite length_map.
Qed.


(** X15.  The anchor period is a column of the pivot exactly when some
    filtered row falls in it; when none does, no cell of the pivot is
    highlighted. *)
Theorem anchor_is_a_column_iff_it_has_rows (P : Pandas) (f : DataFrame)
    (latest : string) :
  (isin latest (pv_columns (pivot_table f)) = true <-> In latest (map period f)) /\
  (~ In latest (map period f) ->
   Forall (fun col => Forall (fun b => b = false) (snd col))
          (highlight_top3_pivot latest (sort_pivot latest (pivot_table f)))).
Proof.
  assert (Hiff : isin latest (pv_columns (pivot_table f)) = true
                 <-> In latest (map period f)).
  { rewrite isin_In. unfold pivot_table, unstack. cbn [pv_columns].
    apply sorted_unique_In. }
  split; [exact Hiff|]. intros Hout.
  assert (Hno : isin latest (pv_columns (pivot_table f)) = false).
  { destruct (isin latest (pv_columns (pivot_table f))); [|reflexivity].
    exfalso. now apply Hout, Hiff. }
  unfold sort_pivot. rewrite Hno. unfold highlight_top3_pivot. rewrite Hno.
  apply Forall_forall. intros col Hcol. apply in_map_iff in Hcol.
  destruct Hcol as (c & <- & _). cbn [snd].
  apply Forall_forall. intros b Hb. apply in_map_iff in Hb.
  now destruct Hb as (v & <- & _).
Qed.

Lemma anchor_is_a_column_iff_it_has_rows_witness :
  ~ In "2024-06" (map period a_and_b_only) /\
  Forall (fun col => Forall (fun b => b = false) (snd col))
         (highlight_top3_pivot "2024-06"
            (@sort_pivot stable_pandas "2024-06" (pivot_table a_and_b_only))).
Proof.
  assert (H : ~ In "2024-06" (map period a_and_b_only)).
  { simpl. intros [E|[E|[]]]; discriminate E. }
  split; [exact H|].
  exact (proj2 (anchor_is_a_column_iff_it_has_rows stable_pandas a_and_b_only
                  "2024-06") H).
Defined.

Lemma sorted_last_is_greatest (l : list string) (m : string) :
  StronglySorted str_lt l -> In m l -> (forall x, In x l -> str_le x m) ->
  last l "" = m.
Proof.
  induction 1 as [|x t Hs IH Hx]; intros Hin Hmax; [contradiction|].
  destruct t as [|y t'].
  - destruct Hin as [->|[]]. reflexivity.
  - change (last (x :: y :: t') "") with (last (y :: t') "").
    apply IH.
    + destruct Hin as [->|Hin]; [|exact Hin].
      exfalso. inversion Hx as [|? ? Hmy _]; subst.
      destruct (Hmax y (or_intror (or_introl eq_refl))) as [->|Hym].
      * exact (str_lt_irrefl _ Hmy).
      * exact (str_lt_irrefl _ (str_lt_trans _ _ _ Hmy Hym)).
    + intros z Hz. apply Hmax. now right.
Qed.

(** X16.  The anchor period is one of the selected months and the greatest
    of them; no column of the pivot of the filtered frame lies after it, so
    when the anchor is a column it is the last one. *)
Theorem anchor_is_the_greatest_selected_month (df : DataFrame)
    (months channels items : list string) (m : string) :
  latest_month months = Ok m ->
  In m months /\
  (forall x, In x months -> str_le x m) /\
  (forall p, In p (pv_columns (pivot_table (filtered_df df months channels items))) ->
             str_le p m) /\
  (isin m (pv_columns (pivot_table (filtered_df df months channels items))) = true ->
   last (pv_columns (pivot_table (filtered_df df months channels items))) "" = m).
Proof.
  intros Hm. destruct (latest_month_is_max months m Hm) as [Hin Hmax].
  assert (Hcols : forall p,
             In p (pv_columns (pivot_table (filtered_df df months channels items))) ->
             str_le p m).
  { intros p Hp. unfold pivot_table, unstack in Hp. cbn [pv_columns] in Hp.
    apply sorted_unique_In, in_map_iff in Hp. destruct Hp as (r & <- & Hr).
    apply filtered_df_In in Hr. apply Hmax. tauto. }
  split; [exact Hin|]. split; [exact Hmax|]. split; [exact Hcols|].
  intros Hcol. apply sorted_last_is_greatest.
  - unfold pivot_table, unstack. cbn [pv_columns]. apply sorted_unique_sorted.
  - now apply isin_In.
  - exact Hcols.
Qed.

Lemma anchor_is_the_greatest_selected_month_witness :
  latest_month ["2024-06"; "2024-04"; "2024-05"] = Ok "2024-06" /\
  last (pv_columns (pivot_table
          (filtered_df b_before_a ["2024-06"; "2024-04"; "2024-05"]
                       ["A"; "B"; "C"] ["Tea"]))) "" = "2024-06".
Proof.
  assert (H : latest_month ["2024-06"; "2024-04"; "2024-05"] = Ok "2024-06")
    by reflexivity.
  split; [exact H|].
  apply (proj2 (proj2 (proj2 (anchor_is_the_greatest_selected_month b_before_a
                                ["2024-06"; "2024-04"; "2024-05"]
                                ["A"; "B"; "C"] ["Tea"] "2024-06" H)))).
  reflexivity.
Defined.

(** ** Errors of the run *)





(** ** Trend *)

Lemma StronglySorted_impl {A : Type} (R R' : A -> A -> Prop) (l : list A) :
  (forall a b, R a b -> R' a b) -> StronglySorted R l -> StronglySorted R' l.
Proof.
  intros Himp. induction 1 as [|a t Hs IH Ha]; constructor; [exact IH|].
  eapply Forall_impl; [|exact Ha]. intros b. apply Himp.
Qed.

(** X18.  When [monthly_trend] returns, its rows run in chronological
    order of the derived date, there is one row per distinct period of the
    filtered frame, and each row carries that period's revenue sum and the
    same sum divided by 100,000,000 as the plotted value. *)
Theorem monthly_trend_is_chronological (P : Pandas) (f : DataFrame)
    (t : list (MonthRow * Q)) :
  monthly_trend f = Ok t ->
  StronglySorted (fun a b => (m_dt (fst a) <= m_dt (fst b))%Z) t /\
  Permutation (map (fun x => m_period (fst x)) t) (all_months f) /\
  Forall (fun x => m_sales (fst x) = period_sum f (m_period (fst x)) /\
                   dt_of (m_period (fst x)) = Some (m_dt (fst x)) /\
                   snd x = m_sales (fst x) / 100000000) t.
Proof.
  unfold monthly_trend, monthly_sales.
  destruct (mapM with_dt (groupby_sum period revenue f)) as [ms|e] eqn:Em;
    [|discriminate].
  cbn [bind]. intros [= <-].
  apply mapM_with_dt_inv in Em. destruct Em as [Hg Hd].
  set (key := fun m : MonthRow => inject_Z (m_dt m)).
  assert (Hperm := sort_values_perm key true ms).
  assert (Hsorted := sort_values_ascending key ms).
  split; [|split].
  - apply (StronglySorted_map (fun a b => (m_dt (fst a) <= m_dt (fst b))%Z)
                              (fun m => (m, m_sales m / 100000000))).
    cbn [fst]. eapply StronglySorted_impl; [|exact Hsorted].
    intros a b Hab. unfold key in Hab. now rewrite Zle_Qle.
  - rewrite map_map. cbn [fst]. unfold all_months.
    rewrite <- (groupby_sum_keys period revenue f), <- Hg, map_map. cbn [fst].
    now apply Permutation_map.
  - apply Forall_forall. intros x Hx. apply in_map_iff in Hx.
    destruct Hx as (m & <- & Hm). cbn [fst snd].
    apply (Permutation_in _ Hperm) in Hm.
    split; [|split; [|reflexivity]].
    + assert (Hin : In (m_period m, m_sales m) (groupby_sum period revenue f)).
      { rewrite <- Hg. apply in_map_iff. now exists m. }
      apply groupby_sum_In in Hin. apply Hin.
    + rewrite Forall_forall in Hd. now apply Hd.
Qed.

Lemma monthly_trend_is_chronological_witness :
  exists t,
    @monthly_trend stable_pandas gap_month = Ok t /\
    map (fun x => m_period (fst x)) t = ["2024-04"; "2024-06"] /\
    StronglySorted (fun a b => (m_dt (fst a) <= m_dt (fst b))%Z) t.
Proof.
  eexists. split; [vm_compute; reflexivity|]. split; [reflexivity|].
  refine (proj1 (monthly_trend_is_chronological stable_pandas gap_month _ _)).
  vm_compute. reflexivity.
Defined.

(** ** Sign of the month-over-month change *)

Lemma mom_formula_sign (a b : Q) :
  (0 < b -> (0 < (a - b) / b * 100 <-> b < a)) /\
  (b < 0 -> (0 < (a - b) / b * 100 <-> a < b)).
Proof.
  unfold Qdiv.
  split; intros Hb.
  - assert (Hk : 0 < / b) by now apply Qinv_lt_0_compat.
    revert Hk. generalize (/ b). intros k Hk. split; intros H; nra.
  - assert (Hone : b * / b == 1) by (apply Qmult_inv_r; lra).
    revert Hone. generalize (/ b). intros k Hone.
    assert (Hk : k < 0) by nra.
    split; intros H; nra.
Qed.

(** X19.  With two periods present the change is defined, and its sign
    follows the sign of the previous period's revenue: over a positive
    previous revenue it is positive exactly when revenue went up; over a
    negative one it is positive exactly when revenue went down; and it is 0
    when the two revenues are equal. *)
Theorem mom_sign (P : Pandas) (f : DataFrame) (p1 p2 : string) :
  latest_present f p1 ->
  previous_present f p1 p2 ->
  exists m,
    mom f = Ok m /\
    (0 < period_sum f p2 -> (0 < m <-> period_sum f p2 < period_sum f p1)) /\
    (period_sum f p2 < 0 -> (0 < m <-> period_sum f p1 < period_sum f p2)) /\
    (period_sum f p1 == period_sum f p2 -> m == 0).
Proof.
  intros H1 H2.
  destruct (monthly_sales_last_two f p1 p2 H1 H2) as (L & d1 & d2 & Hms).
  eexists. split.
  { unfold mom. rewrite Hms. cbn [bind]. rewrite mom_of_last_two.
    cbn [m_sales]. reflexivity. }
  destruct (mom_formula_sign (period_sum f p1) (period_sum f p2)) as [Hpos Hneg].
  destruct (Qeq_bool (period_sum f p2) 0) eqn:E; cbn [negb].
  - apply Qeq_bool_iff in E. split; [|split].
    + intros Hb. rewrite E in Hb. exfalso. revert Hb. apply Qlt_irrefl.
    + intros Hb. rewrite E in Hb. exfalso. revert Hb. apply Qlt_irrefl.
    + reflexivity.
  - split; [exact Hpos|]. split; [exact Hneg|].
    intros Heq. rewrite Heq. unfold Qdiv. ring.
Qed.

Lemma mom_sign_witness :
  @latest_present stable_pandas negative_previous "2024-05" /\
  @previous_present stable_pandas negative_previous "2024-05" "2024-04" /\
  exists m, @mom stable_pandas negative_previous = Ok m /\ m == -150.
Proof.
  assert (H1 : @latest_present stable_pandas negative_previous "2024-05").
  { split; [simpl; auto|]. intros p Hp. on_each_period Hp. }
  assert (H2 : @previous_present stable_pandas negative_previous
                 "2024-05" "2024-04").
  { split; [simpl; auto|]. split; [discriminate|].
    intros p Hp. on_each_period Hp. }
  split; [exact H1|]. split; [exact H2|].
  destruct (mom_sign stable_pandas negative_previous "2024-05" "2024-04" H1 H2)
    as (m & Hm & _).
  exists m. split; [exact Hm|].
  vm_compute in Hm. injection Hm as <-. reflexivity.
Defined.

(** ** Row order *)










(** ** The default run *)

(** X21.  With every "select all" box ticked: on a loaded frame that is
    not empty and whose period labels are dates the run returns, its totals
    being those of the whole loaded frame; on an empty loaded frame (no row
    of the sheet within the twelve months) there is no month to select and
    the run raises IndexError. *)
Theorem default_run (P : Pandas) (df : DataFrame) :
  (df <> [] ->
   (forall r, In r df -> dt_of (period r) <> None) ->
   exists d,
     dashboard df (selection true (all_months df) [])
               (selection true (all_channels df) [])
               (selection true (all_items df) []) = Ok d /\
     d_total_qty d = total_qty df /\ d_total_sales d = total_sales df) /\
  dashboard [] (selection true (all_months []) [])
            (selection true (all_channels []) [])
            (selection true (all_items []) []) = Raise IndexError.
Proof.
  split.
  - intros Hne Hok.
    assert (Hf : filtered_df df (all_months df) (all_channels df) (all_items df)
                 = df).
    { unfold filtered_df, all_months, all_channels, all_items.
      apply forallb_filter_id. apply forallb_forall. intros r Hr.
      rewrite !isin_sorted_unique; [reflexivity | | |]; now apply in_map. }
    assert (Hm : all_months df <> []).
    { destruct df as [|r t]; [congruence|]. intros E.
      assert (Hin : In (period r) (all_months (r :: t)))
        by (apply sorted_unique_In; now left).
      rewrite E in Hin. exact Hin. }
    destruct (dashboard_defined P df (all_months df) (all_channels df)
                (all_items df) Hm) as (d & Hd).
    { rewrite Hf. intros p Hp. apply in_map_iff in Hp.
      destruct Hp as (r & <- & Hr). now apply Hok. }
    exists d. cbn [selection]. split; [exact Hd|].
    unfold dashboard in Hd. rewrite Hf in Hd.
    destruct (mom df) as [m|]; [|discriminate].
    destruct (top_channel df) as [tc|]; [|discriminate].
    destruct (monthly_trend df) as [mt|]; [|discriminate].
    destruct (latest_month (all_months df)) as [lm|]; [|discriminate].
    cbn [bind] in Hd. injection Hd as <-. split; reflexivity.
  - unfold dashboard, mom, monthly_sales. simpl. reflexivity.
Qed.

Lemma default_run_witness :
  b_before_a <> [] /\
  (forall r, In r b_before_a -> @dt_of stable_pandas (period r) <> None) /\
  exists d,
    @dashboard stable_pandas b_before_a
      (selection true (all_months b_before_a) [])
      (selection true (all_channels b_before_a) [])
      (selection true (all_items b_before_a) []) = Ok d /\
    d_total_sales d = total_sales b_before_a.
Proof.
  assert (H1 : b_before_a <> []) by discriminate.
  assert (H2 : forall r, In r b_before_a ->
                         @dt_of stable_pandas (period r) <> None).
  { intros r Hr. simpl in Hr.
    repeat (destruct Hr as [<-|Hr]; [discriminate|]). contradiction. }
  split; [exact H1|]. split; [exact H2|].
  destruct (proj1 (default_run stable_pandas b_before_a) H1 H2)
    as (d & Hd & _ & Hs).
  exists d. split; assumption.
Defined.
